(** * zvks_heatmap: the geocoding pipeline of [interactive_map_google_sheets.py]

    A shallow embedding of the script: the geocoding cache
    ([load_cache], [save_cache], [smart_geocode]), the preparation and
    filtering of the sheet ([prepare_dataframe], [filter_df]) and the main
    process ([generate_map]).

    Python objects that the script mutates (DataFrames, the cache dict) live
    in a store of objects addressed by references; files, the outside
    network and the calls made to the geocoder are further components of the
    state.  Functions of the libraries the script imports (pandas'
    conversions, geopy's [geodesic], [pickle]) are fields of the class
    [Externals]. *)

From Stdlib Require Import ZArith QArith Qabs List Ascii Lia.
From stdpp Require Import gmap strings list fin_maps pretty.

(** ** Settings (section 1 of the script) *)

Definition GOOGLE_SHEET_ID : string := "PASTE_SHEET_ID_HERE".
Definition SERVICE_ACCOUNT_JSON : string := "service_account.json".
Definition WORKSHEET_NAME : option string := None.

Definition CENTER : Q * Q := (55.8437, 48.5066)%Q.
Definition MAX_DIST_KM : Q := 10%Q.
Definition GEOCACHE_FILE : string := "geocache.pkl".

(** The columns of the sheet, and the two columns [generate_map] adds. *)
Inductive column :=
  | COL_STREET | COL_HOUSE | COL_COUNT | COL_DATE | COL_CAT | COL_LAT | COL_LON.

Definition column_name (c : column) : string :=
  match c with
  | COL_STREET => "Улица"
  | COL_HOUSE => "Дом"
  | COL_COUNT => "Всего"
  | COL_DATE => "created_at"
  | COL_CAT => "category"
  | COL_LAT => "lat"
  | COL_LON => "lon"
  end.

(** ** Values *)

(** Python floats are carried around but never computed with by the script;
    they are represented by rationals.  A coordinate is the tuple
    [(latitude, longitude)]. *)
Record Location := { latitude : Q; longitude : Q }.

(** A cell of a DataFrame is dynamically typed.  [NA] is NaN/None, [NaT] the
    missing timestamp, [Timestamp ns] a [pd.Timestamp] in nanoseconds since
    the epoch. *)
Inductive cell :=
  | NA
  | NaT
  | Text (s : string)
  | Int (z : Z)
  | Float (q : Q)
  | Timestamp (ns : Z).

Record row := Row {
  street : cell;
  house : cell;
  count : cell;
  created_at : cell;
  category : cell;
  lat : cell;
  lon : cell
}.

Definition frame := list row.

Definition getitem (r : row) (c : column) : cell :=
  match c with
  | COL_STREET => street r
  | COL_HOUSE => house r
  | COL_COUNT => count r
  | COL_DATE => created_at r
  | COL_CAT => category r
  | COL_LAT => lat r
  | COL_LON => lon r
  end.

Definition setitem (c : column) (v : cell) (r : row) : row :=
  match c with
  | COL_STREET => Row v (house r) (count r) (created_at r) (category r) (lat r) (lon r)
  | COL_HOUSE => Row (street r) v (count r) (created_at r) (category r) (lat r) (lon r)
  | COL_COUNT => Row (street r) (house r) v (created_at r) (category r) (lat r) (lon r)
  | COL_DATE => Row (street r) (house r) (count r) v (category r) (lat r) (lon r)
  | COL_CAT => Row (street r) (house r) (count r) (created_at r) v (lat r) (lon r)
  | COL_LAT => Row (street r) (house r) (count r) (created_at r) (category r) v (lon r)
  | COL_LON => Row (street r) (house r) (count r) (created_at r) (category r) (lat r) v
  end.

(** Objects of the store: DataFrames and the cache dict, which maps a key to
    a coordinate or to [None]. *)
Inductive obj :=
  | DataFrame (f : frame)
  | Dict (d : gmap string (option (Q * Q))).

(** ** Exceptions and results *)

Inductive exn :=
  | ValueError
  | OverflowError
  | TypeError
  | KeyError
  | UnpicklingError.

Inductive result (A : Type) :=
  | Ok (a : A)
  | Raise (e : exn).
Arguments Ok {A} a.
Arguments Raise {A} e.

Definition result_map {A B} (f : A -> B) (r : result A) : result B :=
  match r with
  | Ok a => Ok (f a)
  | Raise e => Raise e
  end.

(** Element-wise conversion of a column: the first failure raises. *)
Fixpoint traverse {A B} (f : A -> result B) (l : list A) : result (list B) :=
  match l with
  | [] => Ok []
  | x :: l' =>
      match f x with
      | Raise e => Raise e
      | Ok y =>
          match traverse f l' with
          | Raise e => Raise e
          | Ok ys => Ok (y :: ys)
          end
      end
  end.

(** Boolean indexing [df[mask]]. *)
Fixpoint select {A} (mask : list bool) (l : list A) : list A :=
  match mask, l with
  | b :: mask', x :: l' => if b then x :: select mask' l' else select mask' l'
  | _, _ => []
  end.

(** ** The imported libraries *)

Class Externals := {
  (** the state of everything outside the process: the sheet, Nominatim *)
  net : Type;
  (** [gspread] and [get_as_dataframe]: the rows of a worksheet *)
  read_sheet : string -> string -> option string -> net -> result frame * net;
  (** [RateLimiter(Nominatim(...).geocode, min_delay_seconds=1)]: a location
      or [None]; the rate limiter turns a service error into [None] *)
  geocode : string -> net -> option Location * net;
  (** [geodesic(p, q).km] *)
  geodesic_km : Q * Q -> Q * Q -> Q;
  (** whether [DataFrame.apply], for a frame without rows, calls the function
      once on a row of NaN to see what it returns (versions of pandas
      differ) *)
  apply_probes_empty : bool;
  (** [str(v)] for a value that is not a string *)
  str_of_value : cell -> string;
  (** [astype(int)] on a value that is neither an [int64] integer nor a
      float whose integer part is one *)
  int_of_value : cell -> result Z;
  (** [pd.to_datetime] on a value that is neither missing nor a timestamp *)
  datetime_of_value : cell -> result Z;
  (** [dt.date.fromisoformat]: the day number of a date, days since the epoch *)
  date_fromisoformat : string -> result Z;
  (** [pickle.dumps] and [pickle.loads] on cache dicts *)
  pickle_dumps : gmap string (option (Q * Q)) -> list Byte.byte;
  pickle_loads : list Byte.byte -> option (gmap string (option (Q * Q)));
  (** what is pickled is unpickled to an equal dict *)
  pickle_loads_dumps : forall d, pickle_loads (pickle_dumps d) = Some d;
  (** a pickle cut short does not load *)
  pickle_loads_truncated : forall d n,
    (n < length (pickle_dumps d))%nat -> pickle_loads (take n (pickle_dumps d)) = None
}.

Section Script.
Context `{Externals}.

(** ** The state and its monad *)

Record world := World {
  objs : list obj;                        (* the store of Python objects *)
  files : gmap string (list Byte.byte);   (* the file system *)
  net_state : net;                        (* the outside *)
  lookups : list (string * string);       (* calls to the geocoder: key, address *)
  maps : list frame                       (* frames handed to the map renderer *)
}.

Definition set_objs (o : list obj) (w : world) : world :=
  World o (files w) (net_state w) (lookups w) (maps w).
Definition set_files (f : gmap string (list Byte.byte)) (w : world) : world :=
  World (objs w) f (net_state w) (lookups w) (maps w).

Definition M (A : Type) : Type := world -> result A * world.

Definition ret {A} (a : A) : M A := fun w => (Ok a, w).
Definition raise {A} (e : exn) : M A := fun w => (Raise e, w).
Definition bind {A B} (m : M A) (k : A -> M B) : M B :=
  fun w =>
    match m w with
    | (Ok a, w') => k a w'
    | (Raise e, w') => (Raise e, w')
    end.
Definition lift {A} (r : result A) : M A := fun w => (r, w).

#[global] Instance M_ret : MRet M := @ret.
#[global] Instance M_bind : MBind M := fun A B k m => bind m k.

(** Store primitives.  A reference is an index of the store; a new object
    gets the next one. *)
Definition alloc (o : obj) : M nat :=
  fun w => (Ok (length (objs w)), set_objs (objs w ++ [o]) w).

Definition read_frame (d : nat) : M frame :=
  fun w =>
    match objs w !! d with
    | Some (DataFrame f) => (Ok f, w)
    | _ => (Raise TypeError, w)
    end.

Definition read_dict (d : nat) : M (gmap string (option (Q * Q))) :=
  fun w =>
    match objs w !! d with
    | Some (Dict c) => (Ok c, w)
    | _ => (Raise TypeError, w)
    end.

Definition write (d : nat) (o : obj) : M unit :=
  fun w => (Ok tt, set_objs (<[d := o]> (objs w)) w).

(** ** DataFrame operations *)

(** [df.copy()] *)
Definition copy (df : nat) : M nat :=
  f ← read_frame df;
  alloc (DataFrame f).

(** [df[col]] *)
Definition getcol (df : nat) (c : column) : M (list cell) :=
  f ← read_frame df;
  ret (map (fun r => getitem r c) f).

(** [df[col] = values], in place *)
Definition setcol (df : nat) (c : column) (values : list cell) : M unit :=
  f ← read_frame df;
  if Nat.eqb (length values) (length f)
  then write df (DataFrame (zip_with (setitem c) values f))
  else raise ValueError.

(** [df[mask]], a new frame *)
Definition getitem_mask (df : nat) (mask : list bool) : M nat :=
  f ← read_frame df;
  alloc (DataFrame (select mask f)).

Definition isna (c : cell) : bool :=
  match c with
  | NA | NaT => true
  | _ => false
  end.

Definition notna (c : cell) : bool := negb (isna c).

Definition fillna (v : cell) (values : list cell) : list cell :=
  map (fun c => if isna c then v else c) values.

(** [str(v)], also what an f-string makes of [v] *)
Definition cell_str (c : cell) : string :=
  match c with
  | Text s => s
  | _ => str_of_value c
  end.

Definition astype_str (values : list cell) : list cell :=
  map (fun c => Text (cell_str c)) values.

Definition int64_min : Z := - 2 ^ 63.
Definition int64_max : Z := 2 ^ 63 - 1.
Definition in_int64 (z : Z) : bool := (int64_min <=? z)%Z && (z <=? int64_max)%Z.

(** The integer part of a float, towards zero. *)
Definition trunc (q : Q) : Z := (Qnum q ÷ Z.pos (Qden q))%Z.

(** [astype(int)] on one value: an integer stays, a float loses its
    fraction; the result is an [int64]. *)
Definition cell_int (c : cell) : result Z :=
  match c with
  | Int z => if in_int64 z then Ok z else Raise OverflowError
  | Float q => if in_int64 (trunc q) then Ok (trunc q) else int_of_value c
  | _ => int_of_value c
  end.

Definition astype_int (values : list cell) : result (list cell) :=
  traverse (fun c => result_map Int (cell_int c)) values.

(** [pd.to_datetime] on one value: a missing value becomes [NaT]. *)
Definition cell_datetime (c : cell) : result cell :=
  match c with
  | NA | NaT => Ok NaT
  | Timestamp ns => Ok (Timestamp ns)
  | _ => result_map Timestamp (datetime_of_value c)
  end.

(** [pd.to_datetime(values)], with the default [errors="raise"] *)
Definition to_datetime (values : list cell) : result (list cell) :=
  traverse cell_datetime values.

(** ** 2) The sheet *)

Definition fetch_sheet_df (sheet_id cred_json : string) (worksheet_name : option string)
  : M nat :=
  fun w =>
    match read_sheet sheet_id cred_json worksheet_name (net_state w) with
    | (Ok f, n) =>
        alloc (DataFrame f) (World (objs w) (files w) n (lookups w) (maps w))
    | (Raise e, n) =>
        (Raise e, World (objs w) (files w) n (lookups w) (maps w))
    end.

(** ** 3) Geocoding with a cache *)

(** [load_cache]: the dict unpickled from the file, or a new empty dict when
    the file does not exist. *)
Definition load_cache (path : string) : M nat :=
  fun w =>
    match files w !! path with
    | Some bytes =>
        match pickle_loads bytes with
        | Some d => alloc (Dict d) w
        | None => (Raise UnpicklingError, w)
        end
    | None => alloc (Dict ∅) w
    end.

(** What [save_cache] does to the file system, one step at a time:
    [open(path, "wb")] creates the file or cuts it to length zero, then the
    bytes of the pickle are appended. *)
Inductive file_op :=
  | OpenWb (path : string)
  | WriteByte (path : string) (b : Byte.byte).

Definition file_step (fs : gmap string (list Byte.byte)) (op : file_op)
  : gmap string (list Byte.byte) :=
  match op with
  | OpenWb path => <[path := []]> fs
  | WriteByte path b => <[path := default [] (fs !! path) ++ [b]]> fs
  end.

Definition save_cache_ops (d : gmap string (option (Q * Q))) (path : string) : list file_op :=
  OpenWb path :: map (WriteByte path) (pickle_dumps d).

Definition run_file_ops (ops : list file_op) : M unit :=
  fun w => (Ok tt, set_files (foldl file_step (files w) ops) w).

Definition save_cache (cache : nat) (path : string) : M unit :=
  d ← read_dict cache;
  run_file_ops (save_cache_ops d path).

(** [save_cache] when the process stops after [k] steps on the file. *)
Definition save_cache_interrupted (k : nat) (cache : nat) (path : string) : M unit :=
  d ← read_dict cache;
  run_file_ops (take k (save_cache_ops d path)).

Definition key (street house : string) : string :=
  street +:+ "_" +:+ house.

Definition address (street house : string) : string :=
  street +:+ ", " +:+ house +:+ ", Зеленодольск, Республика Татарстан, Россия".

(** A call of [geocode_fn]: the outside moves on and the call is logged,
    with the key whose miss made it. *)
Definition call_geocode (geocode_fn : string -> net -> option Location * net)
    (k a : string) : M (option Location) :=
  fun w =>
    let (loc, n) := geocode_fn a (net_state w) in
    (Ok loc, World (objs w) (files w) n (lookups w ++ [(k, a)]) (maps w)).

(** [cache[key] = v] *)
Definition dict_setitem (cache : nat) (k : string) (v : option (Q * Q)) : M unit :=
  d ← read_dict cache;
  write cache (Dict (<[k := v]> d)).

(** [cache[key]] *)
Definition dict_getitem (cache : nat) (k : string) : M (option (Q * Q)) :=
  d ← read_dict cache;
  match d !! k with
  | Some v => ret v
  | None => raise KeyError
  end.

Definition within_max_dist (c : Q * Q) : bool :=
  Qle_bool (geodesic_km CENTER c) MAX_DIST_KM.

Definition smart_geocode (street house : string)
    (geocode_fn : string -> net -> option Location * net) (cache : nat)
  : M (option (Q * Q)) :=
  d ← read_dict cache;
  match d !! key street house with
  | Some v => ret v
  | None =>
      loc ← call_geocode geocode_fn (key street house) (address street house);
      match loc with
         | Some l =>
             if within_max_dist (latitude l, longitude l)
             then dict_setitem cache (key street house) (Some (latitude l, longitude l))
             else dict_setitem cache (key street house) None
         | None => dict_setitem cache (key street house) None
         end;;
      dict_getitem cache (key street house)
  end.

(** ** 4) Preparation of the data *)

Definition prepare_dataframe (df_raw : nat) : M nat :=
  df ← copy df_raw;
  s ← getcol df COL_STREET;
  h ← getcol df COL_HOUSE;
  df ← getitem_mask df (zip_with andb (map notna s) (map notna h));
  s ← getcol df COL_STREET;
  setcol df COL_STREET (astype_str s);;
  h ← getcol df COL_HOUSE;
  setcol df COL_HOUSE (astype_str h);;
  c ← getcol df COL_COUNT;
  c ← lift (astype_int (fillna (Int 0) c));
  setcol df COL_COUNT c;;
  t ← getcol df COL_DATE;
  t ← lift (to_datetime t);
  setcol df COL_DATE t;;
  c ← getcol df COL_CAT;
  setcol df COL_CAT (fillna (Text "Не указано") c);;
  ret df.

(** ** 5) Filtering by date and category *)

Definition NS_PER_SECOND : Z := 1000000000.
Definition NS_PER_DAY : Z := 86400 * NS_PER_SECOND.

(** [pd.Timestamp(d)] for a date: midnight of the day *)
Definition Timestamp_of_date (d : Z) : Z := (d * NS_PER_DAY)%Z.
Definition Timedelta_days (n : Z) : Z := (n * NS_PER_DAY)%Z.
Definition Timedelta_seconds (n : Z) : Z := (n * NS_PER_SECOND)%Z.

(** Comparisons of a datetime column with a timestamp; [NaT] compares
    false. *)
Definition ge_timestamp (c : cell) (t : Z) : bool :=
  match c with
  | Timestamp ns => (t <=? ns)%Z
  | _ => false
  end.

Definition le_timestamp (c : cell) (t : Z) : bool :=
  match c with
  | Timestamp ns => (ns <=? t)%Z
  | _ => false
  end.

(** [Series.isin(cats)] for a list of strings *)
Definition isin (c : cell) (cats : list string) : bool :=
  match c with
  | Text s => bool_decide (s ∈ cats)
  | _ => false
  end.

Definition filter_mask (date_from date_to : Z) (cats : option (list string)) (r : row) : bool :=
  let mask :=
    ge_timestamp (created_at r) (Timestamp_of_date date_from)
    && le_timestamp (created_at r)
         (Timestamp_of_date date_to + Timedelta_days 1 - Timedelta_seconds 1)%Z in
  match cats with
  | Some (c :: cs) => mask && isin (category r) (c :: cs)
  | _ => mask
  end.

Definition filter_df (df : nat) (date_from date_to : Z) (cats : option (list string)) : M nat :=
  f ← read_frame df;
  alloc (DataFrame (select (map (filter_mask date_from date_to cats) f) f)).

(** ** 6) The map *)

(** The renderer is outside the model: [build_map] records the frame it is
    given. *)
Definition render (f : frame) : M unit :=
  fun w => (Ok tt, World (objs w) (files w) (net_state w) (lookups w) (maps w ++ [f])).

Definition build_map (df : nat) : M unit :=
  f ← read_frame df;
  render f.

(** ** 7) The main process *)

(** [df.apply(f, axis=1)]: the rows in order. *)
Fixpoint apply_rows {A} (f : row -> M A) (rows : list row) : M (list A) :=
  match rows with
  | [] => ret []
  | r :: rows' =>
      x ← f r;
      xs ← apply_rows f rows';
      ret (x :: xs)
  end.

(** The row of NaN that [apply] tries the function on when the frame has
    no rows; what the function returns is dropped, an exception it raises
    is caught, what it did stays done. *)
Definition nan_row : row := Row NA NA NA NA NA NA NA.

Definition probe {A} (m : M A) : M unit :=
  fun w => (Ok tt, snd (m w)).

Definition df_apply {A} (df : nat) (f : row -> M A) : M (list A) :=
  rows ← read_frame df;
  match rows with
  | [] => if apply_probes_empty then probe (f nan_row);; mret [] else mret []
  | _ => apply_rows f rows
  end.

Definition coord_lat (c : option (Q * Q)) : cell :=
  match c with
  | Some p => Float (fst p)
  | None => NA
  end.

Definition coord_lon (c : option (Q * Q)) : cell :=
  match c with
  | Some p => Float (snd p)
  | None => NA
  end.

(** [df.dropna(subset=cols)], a new frame *)
Definition dropna (df : nat) (subset : list column) : M nat :=
  f ← read_frame df;
  alloc (DataFrame (select (map (fun r => forallb (fun c => notna (getitem r c)) subset) f) f)).

Definition generate_map (date_from date_to : string) (categories : option (list string))
    (worksheet_name : option string) : M unit :=
  raw_df ← fetch_sheet_df GOOGLE_SHEET_ID SERVICE_ACCOUNT_JSON worksheet_name;
  df ← prepare_dataframe raw_df;
  cache ← load_cache GEOCACHE_FILE;
  coords ← df_apply df (fun r =>
                 smart_geocode (cell_str (street r)) (cell_str (house r)) geocode cache);
  setcol df COL_LAT (map coord_lat coords);;
  setcol df COL_LON (map coord_lon coords);;
  save_cache cache GEOCACHE_FILE;;
  df ← dropna df [COL_LAT; COL_LON];
  d_from ← lift (date_fromisoformat date_from);
  d_to ← lift (date_fromisoformat date_to);
  df_filt ← filter_df df d_from d_to categories;
  build_map df_filt.

(** One invocation of the script after another.  Each starts as a new
    process, with an empty store, on the files the one before left; the
    outside may have changed in between. *)
Record invocation := {
  outside_change : net -> net;
  arg_from : string;
  arg_to : string;
  arg_cats : option (list string);
  arg_sheet : option string
}.

Definition new_process (change : net -> net) (w : world) : world :=
  World [] (files w) (change (net_state w)) (lookups w) (maps w).

Fixpoint invocations (l : list invocation) (w : world) : world :=
  match l with
  | [] => w
  | i :: l' =>
      invocations l'
        (snd (generate_map (arg_from i) (arg_to i) (arg_cats i) (arg_sheet i)
                (new_process (outside_change i) w)))
  end.

End Script.

(** ** A reference instance of the libraries

    A small world in which the script can be run: the outside is a sheet and
    a gazetteer, dates are read in the form YYYY-MM-DD, distances are taken
    on a grid of 111 km per degree, and a dict is pickled bit by bit with a
    closing STOP byte. *)

Record reference_net := {
  sheet : frame;
  gazetteer : list (string * Location)
}.

Fixpoint gazetteer_find (a : string) (g : list (string * Location)) : option Location :=
  match g with
  | [] => None
  | (a', l) :: g' => if String.eqb a a' then Some l else gazetteer_find a g'
  end.

Definition grid_distance_km (p q : Q * Q) : Q :=
  (111 * (Qabs (fst p - fst q) + Qabs (snd p - snd q)))%Q.

Definition digit (a : Ascii.ascii) : option Z :=
  let n := Ascii.nat_of_ascii a in
  if (48 <=? n)%nat && (n <=? 57)%nat then Some (Z.of_nat n - 48)%Z else None.

Fixpoint digits (l : list Ascii.ascii) (acc : Z) : option Z :=
  match l with
  | [] => Some acc
  | a :: l' =>
      match digit a with
      | Some d => digits l' (10 * acc + d)%Z
      | None => None
      end
  end.

(** The day number of a date of the proleptic Gregorian calendar. *)
Definition days_from_civil (y m d : Z) : Z :=
  let y := (if m <=? 2 then y - 1 else y)%Z in
  let era := (y / 400)%Z in
  let yoe := (y - era * 400)%Z in
  let doy := ((153 * (if m <=? 2 then m + 9 else m - 3) + 2) / 5 + d - 1)%Z in
  let doe := (yoe * 365 + yoe / 4 - yoe / 100 + doy)%Z in
  (era * 146097 + doe - 719468)%Z.

Definition iso_date (s : string) : result Z :=
  match String.list_ascii_of_string s with
  | [y1; y2; y3; y4; "-"%char; m1; m2; "-"%char; d1; d2] =>
      match digits [y1; y2; y3; y4] 0, digits [m1; m2] 0, digits [d1; d2] 0 with
      | Some y, Some m, Some d =>
          if (1 <=? m)%Z && (m <=? 12)%Z && (1 <=? d)%Z && (d <=? 31)%Z
          then Ok (days_from_civil y m d)
          else Raise ValueError
      | _, _, _ => Raise ValueError
      end
  | _ => Raise ValueError
  end.

Definition reference_datetime (c : cell) : result Z :=
  match c with
  | Text s => result_map Timestamp_of_date (iso_date s)
  | Int z => Ok z
  | _ => Raise ValueError
  end.

Definition reference_str (c : cell) : string :=
  match c with
  | Int z => pretty z
  | _ => "nan"
  end.

#[global] Instance Q_eq_dec : EqDecision Q.
Proof. solve_decision. Defined.

Lemma Q_of_pair_to_pair (q : Q) :
  (fun p : Z * positive => Qmake (fst p) (snd p)) ((fun q => (Qnum q, Qden q)) q) = q.
Proof. destruct q; reflexivity. Qed.

#[global] Instance Q_countable : Countable Q :=
  inj_countable' (fun q => (Qnum q, Qden q)) (fun p => Qmake (fst p) (snd p))
    Q_of_pair_to_pair.

Definition STOP : Byte.byte := Byte.x2e.

Fixpoint bits_of_pos (p : positive) : list Byte.byte :=
  match p with
  | xH => []
  | xO p' => Byte.x00 :: bits_of_pos p'
  | xI p' => Byte.x01 :: bits_of_pos p'
  end.

Fixpoint pos_of_bits (l : list Byte.byte) : option positive :=
  match l with
  | [] => Some xH
  | Byte.x00 :: l' => option_map xO (pos_of_bits l')
  | Byte.x01 :: l' => option_map xI (pos_of_bits l')
  | _ => None
  end.

(** The bytes before the STOP byte that ends the stream. *)
Fixpoint unframe (l : list Byte.byte) : option (list Byte.byte) :=
  match l with
  | [] => None
  | [Byte.x2e] => Some []
  | b :: l' => option_map (cons b) (unframe l')
  end.

Definition reference_dumps (d : gmap string (option (Q * Q))) : list Byte.byte :=
  bits_of_pos (encode d) ++ [STOP].

Definition reference_loads (l : list Byte.byte) : option (gmap string (option (Q * Q))) :=
  match unframe l with
  | Some bits =>
      match pos_of_bits bits with
      | Some p => decode p
      | None => None
      end
  | None => None
  end.

Lemma pos_of_bits_of_pos p : pos_of_bits (bits_of_pos p) = Some p.
Proof. induction p as [p IH | p IH |]; simpl; rewrite ?IH; reflexivity. Qed.

Lemma unframe_bits p : unframe (bits_of_pos p ++ [STOP]) = Some (bits_of_pos p).
Proof.
  induction p as [p IH | p IH |]; simpl; try reflexivity.
  - rewrite IH. destruct (bits_of_pos p ++ [STOP]) eqn:E; [by destruct (bits_of_pos p)|done].
  - rewrite IH. destruct (bits_of_pos p ++ [STOP]) eqn:E; [by destruct (bits_of_pos p)|done].
Qed.

Lemma unframe_take_bits p n : unframe (take n (bits_of_pos p)) = None.
Proof.
  revert n. induction p as [p IH | p IH |]; intros [|n]; simpl; try reflexivity.
  - rewrite IH. by destruct (take n (bits_of_pos p)).
  - rewrite IH. by destruct (take n (bits_of_pos p)).
Qed.

Lemma reference_loads_dumps d : reference_loads (reference_dumps d) = Some d.
Proof.
  unfold reference_loads, reference_dumps.
  rewrite unframe_bits, pos_of_bits_of_pos. apply decode_encode.
Qed.

Lemma reference_loads_truncated d n :
  (n < length (reference_dumps d))%nat ->
  reference_loads (take n (reference_dumps d)) = None.
Proof.
  unfold reference_loads, reference_dumps. rewrite length_app. simpl. intros Hn.
  rewrite take_app_le by lia. by rewrite unframe_take_bits.
Qed.

Definition reference : Externals := {|
  net := reference_net;
  read_sheet := fun _ _ _ n => (Ok (sheet n), n);
  geocode := fun a n => (gazetteer_find a (gazetteer n), n);
  geodesic_km := grid_distance_km;
  apply_probes_empty := true;
  str_of_value := reference_str;
  int_of_value := fun _ => Raise ValueError;
  datetime_of_value := reference_datetime;
  date_fromisoformat := iso_date;
  pickle_dumps := reference_dumps;
  pickle_loads := reference_loads;
  pickle_loads_dumps := reference_loads_dumps;
  pickle_loads_truncated := reference_loads_truncated
|}.

Definition kazan : Location := {| latitude := 55.7963; longitude := 49.1088 |}.
Definition lenina_5 : Location := {| latitude := 55.8466; longitude := 48.5012 |}.

Definition sample_sheet : frame := [
  Row (Text "Ленина") (Int 5) (Int 3) (Text "2025-06-30") (Text "вода") NA NA;
  Row (Text "Ленина") (Int 5) NA (Text "2025-06-01") NA NA NA;
  Row (Text "Баумана") (Text "1") (Float 2.7) (Text "2025-06-15") (Text "вода") NA NA;
  Row NA (Text "7") (Int 1) (Text "2025-06-15") (Text "вода") NA NA
].

Definition sample_net : reference_net := {|
  sheet := sample_sheet;
  gazetteer := [
    (address "Ленина" "5", lenina_5);
    (address "Баумана" "1", kazan)
  ]
|}.

Definition sample_world : @world reference := @World reference [] ∅ sample_net [] [].


(** * Properties *)

Section Properties.
Context `{Externals}.

(** ** Running the monad *)

Lemma bind_ok {A B} (m : M A) (k : A -> M B) w a w' :
  m w = (Ok a, w') -> (m ≫= k) w = k a w'.
Proof. intros Hm. unfold mbind, M_bind, bind. by rewrite Hm. Qed.

Lemma bind_raise {A B} (m : M A) (k : A -> M B) w e w' :
  m w = (Raise e, w') -> (m ≫= k) w = (Raise e, w').
Proof. intros Hm. unfold mbind, M_bind, bind. by rewrite Hm. Qed.

Lemma read_frame_run w d f :
  objs w !! d = Some (DataFrame f) -> read_frame d w = (Ok f, w).
Proof. intros Hd. unfold read_frame. by rewrite Hd. Qed.

Lemma read_dict_run w d c :
  objs w !! d = Some (Dict c) -> read_dict d w = (Ok c, w).
Proof. intros Hd. unfold read_dict. by rewrite Hd. Qed.

(** The coordinate [smart_geocode] keeps for what the geocoder returned. *)
Definition validated (loc : option Location) : option (Q * Q) :=
  match loc with
  | Some l =>
      if within_max_dist (latitude l, longitude l)
      then Some (latitude l, longitude l)
      else None
  | None => None
  end.

(** [smart_geocode] in one step: a hit returns the entry and changes
    nothing; a miss calls the geocoder once and stores what it keeps. *)
Lemma smart_geocode_run street house g cache w d :
  objs w !! cache = Some (Dict d) ->
  smart_geocode street house g cache w =
    match d !! key street house with
    | Some v => (Ok v, w)
    | None =>
        let v := validated (fst (g (address street house) (net_state w))) in
        (Ok v,
         World (<[cache := Dict (<[key street house := v]> d)]> (objs w)) (files w)
           (snd (g (address street house) (net_state w)))
           (lookups w ++ [(key street house, address street house)]) (maps w))
    end.
Proof.
  intros Hd. unfold smart_geocode.
  rewrite (bind_ok _ _ _ _ _ (read_dict_run _ _ _ Hd)).
  destruct (d !! key street house) as [v|] eqn:Hk; [reflexivity|].
  pose proof (lookup_lt_Some _ _ _ Hd) as Hlt.
  unfold mbind, M_bind, bind, call_geocode.
  destruct (g (address street house) (net_state w)) as [loc n]. simpl.
  assert (Hset : forall v,
    dict_setitem cache (key street house) v
      (World (objs w) (files w) n
         (lookups w ++ [(key street house, address street house)]) (maps w))
    = (Ok tt,
       World (<[cache := Dict (<[key street house := v]> d)]> (objs w)) (files w) n
         (lookups w ++ [(key street house, address street house)]) (maps w))).
  { intros v. unfold dict_setitem, mbind, M_bind, bind, read_dict. simpl.
    rewrite Hd. reflexivity. }
  assert (Hget : forall v,
    dict_getitem cache (key street house)
      (World (<[cache := Dict (<[key street house := v]> d)]> (objs w)) (files w) n
         (lookups w ++ [(key street house, address street house)]) (maps w))
    = (Ok v,
       World (<[cache := Dict (<[key street house := v]> d)]> (objs w)) (files w) n
         (lookups w ++ [(key street house, address street house)]) (maps w))).
  { intros v. unfold dict_getitem, mbind, M_bind, bind, read_dict. simpl.
    rewrite list_lookup_insert_eq by done. rewrite lookup_insert_eq. reflexivity. }
  destruct loc as [l|]; simpl.
  - destruct (within_max_dist (latitude l, longitude l)); rewrite Hset, Hget; reflexivity.
  - rewrite Hset, Hget. reflexivity.
Qed.

(** ** The rows of a batch

    [generate_map] applies [smart_geocode] to the rows in order, with one
    cache dict.  [geocode_rows] is that loop on the dict alone: the
    coordinates of the rows, the dict and the outside at the end, and the
    calls made. *)

Definition row_key (r : row) : string :=
  key (cell_str (street r)) (cell_str (house r)).

Definition row_address (r : row) : string :=
  address (cell_str (street r)) (cell_str (house r)).

Definition geocode_row (g : string -> net -> option Location * net) (cache : nat) (r : row)
  : M (option (Q * Q)) :=
  smart_geocode (cell_str (street r)) (cell_str (house r)) g cache.

Fixpoint geocode_rows (g : string -> net -> option Location * net) (rows : list row)
    (d : gmap string (option (Q * Q))) (n : net)
  : list (option (Q * Q)) * gmap string (option (Q * Q)) * net * list (string * string) :=
  match rows with
  | [] => ([], d, n, [])
  | r :: rows' =>
      match d !! row_key r with
      | Some v =>
          let '(cs, d', n', log) := geocode_rows g rows' d n in
          (v :: cs, d', n', log)
      | None =>
          let v := validated (fst (g (row_address r) n)) in
          let '(cs, d', n', log) :=
            geocode_rows g rows' (<[row_key r := v]> d) (snd (g (row_address r) n)) in
          (v :: cs, d', n', (row_key r, row_address r) :: log)
      end
  end.


Lemma geocode_row_run g cache r w d :
  objs w !! cache = Some (Dict d) ->
  geocode_row g cache r w =
    match d !! row_key r with
    | Some v => (Ok v, w)
    | None =>
        let v := validated (fst (g (row_address r) (net_state w))) in
        (Ok v,
         World (<[cache := Dict (<[row_key r := v]> d)]> (objs w)) (files w)
           (snd (g (row_address r) (net_state w)))
           (lookups w ++ [(row_key r, row_address r)]) (maps w))
    end.
Proof. intros Hd. unfold geocode_row, row_key, row_address. by apply smart_geocode_run. Qed.

Lemma apply_rows_geocode g cache rows : forall w d,
  objs w !! cache = Some (Dict d) ->
  apply_rows (geocode_row g cache) rows w =
    let '(cs, d', n', log) := geocode_rows g rows d (net_state w) in
    (Ok cs, World (<[cache := Dict d']> (objs w)) (files w) n' (lookups w ++ log) (maps w)).
Proof.
  induction rows as [|r rows IH]; intros w d Hd; simpl.
  - rewrite list_insert_id by done. rewrite app_nil_r. by destruct w.
  - unfold mbind, M_bind, bind. rewrite (geocode_row_run g cache r w d Hd).
    destruct (d !! row_key r) as [v|] eqn:Hk.
    + rewrite (IH w d Hd).
      by destruct (geocode_rows g rows d (net_state w)) as [[[cs d'] n'] log].
    + pose proof (lookup_lt_Some _ _ _ Hd) as Hlt. cbv zeta.
      set (v := validated (fst (g (row_address r) (net_state w)))).
      set (n1 := snd (g (row_address r) (net_state w))).
      lazy beta iota.
      rewrite (IH _ (<[row_key r := v]> d)) by (simpl; by rewrite list_lookup_insert_eq).
      simpl.
      destruct (geocode_rows g rows (<[row_key r := v]> d) n1) as [[[cs d'] n'] log].
      unfold mret, M_ret, ret.
      by rewrite list_insert_insert_eq, <- app_assoc.
Qed.

Ltac geocode_rows_step IH rows Hrun :=
  match type of Hrun with
  | context [geocode_rows ?g rows ?d0 ?n0] =>
      let E := fresh "E" in
      destruct (geocode_rows g rows d0 n0) as [[[? ?] ?] ?] eqn:E;
      lazy beta iota zeta in Hrun;
      injection Hrun as <- <- <- <-;
      specialize (IH _ _ _ _ _ _ E)
  end.

Lemma geocode_rows_length g rows : forall d n cs d' n' log,
  geocode_rows g rows d n = (cs, d', n', log) -> length cs = length rows.
Proof.
  induction rows as [|r rows IH]; intros d n cs d' n' log Hrun.
  - by injection Hrun as <- <- <- <-.
  - cbn [geocode_rows] in Hrun. destruct (d !! row_key r); geocode_rows_step IH rows Hrun;
      simpl; by rewrite IH.
Qed.

(** An entry of the dict is never overwritten. *)
Lemma geocode_rows_keeps g rows : forall d n cs d' n' log,
  geocode_rows g rows d n = (cs, d', n', log) ->
  forall k v, d !! k = Some v -> d' !! k = Some v.
Proof.
  induction rows as [|r rows IH]; intros d n cs d' n' log Hrun k v Hk.
  - by injection Hrun as <- <- <- <-.
  - cbn [geocode_rows] in Hrun. destruct (d !! row_key r) eqn:Hr; geocode_rows_step IH rows Hrun.
    + by apply IH.
    + apply IH. rewrite lookup_insert_ne; [done|]. intros Heq. rewrite <- Heq in Hk. congruence.
Qed.

(** The coordinate of a row is the entry of its key in the dict at the end. *)
Lemma geocode_rows_lookup g rows : forall d n cs d' n' log,
  geocode_rows g rows d n = (cs, d', n', log) ->
  forall i r, rows !! i = Some r ->
  exists v, cs !! i = Some v /\ d' !! row_key r = Some v.
Proof.
  induction rows as [|r0 rows IH]; intros d n cs d' n' log Hrun i r Hi; [done|].
  cbn [geocode_rows] in Hrun. destruct (d !! row_key r0) as [v0|] eqn:Hr.
  - destruct (geocode_rows g rows d n) as [[[cs1 d1] n1] log1] eqn:E.
    injection Hrun as <- <- <- <-.
    destruct i as [|i]; simpl in *.
    + injection Hi as <-. exists v0. split; [done|].
      by eapply geocode_rows_keeps.
    + by eapply IH.
  - match type of Hrun with context [geocode_rows g rows ?d0 ?n0] =>
      destruct (geocode_rows g rows d0 n0) as [[[cs1 d1] n1] log1] eqn:E end.
    injection Hrun as <- <- <- <-.
    destruct i as [|i]; simpl in *.
    + injection Hi as <-. eexists. split; [done|].
      eapply geocode_rows_keeps; [exact E|]. apply lookup_insert_eq.
    + by eapply IH.
Qed.


(** The loop as [df.apply] runs it: as [geocode_rows], but for a frame
    without rows the key of the row of NaN may be looked up. *)
Definition geocode_batch (g : string -> net -> option Location * net) (rows : list row)
    (d : gmap string (option (Q * Q))) (n : net)
  : list (option (Q * Q)) * gmap string (option (Q * Q)) * net * list (string * string) :=
  match rows with
  | [] =>
      if apply_probes_empty
      then let '(_, d', n', log) := geocode_rows g [nan_row] d n in ([], d', n', log)
      else ([], d, n, [])
  | _ => geocode_rows g rows d n
  end.

Lemma geocode_batch_cases g rows d n cs d' n' log :
  geocode_batch g rows d n = (cs, d', n', log) ->
  geocode_rows g rows d n = (cs, d', n', log)
  \/ (rows = [] /\ cs = [] /\ exists cs0, geocode_rows g [nan_row] d n = (cs0, d', n', log)).
Proof.
  unfold geocode_batch. destruct rows as [|r rows]; [|by left].
  destruct apply_probes_empty; [|by left].
  destruct (geocode_rows g [nan_row] d n) as [[[cs0 d0] n0] log0].
  intros [= <- <- <- <-]. right. eauto.
Qed.

Lemma df_apply_geocode_run g df cache w rows d :
  objs w !! df = Some (DataFrame rows) ->
  objs w !! cache = Some (Dict d) ->
  df_apply df (fun r => smart_geocode (cell_str (street r)) (cell_str (house r)) g cache) w =
    let '(cs, d', n', log) := geocode_batch g rows d (net_state w) in
    (Ok cs, World (<[cache := Dict d']> (objs w)) (files w) n' (lookups w ++ log) (maps w)).
Proof.
  intros Hdf Hd. unfold df_apply. rewrite (bind_ok _ _ _ _ _ (read_frame_run _ _ _ Hdf)).
  change (fun r => smart_geocode (cell_str (street r)) (cell_str (house r)) g cache)
    with (geocode_row g cache).
  destruct rows as [|r rows]; [|by apply (apply_rows_geocode g cache (r :: rows) w d)].
  unfold geocode_batch. destruct apply_probes_empty.
  - pose proof (apply_rows_geocode g cache [nan_row] w d Hd) as Hrun.
    destruct (geocode_rows g [nan_row] d (net_state w)) as [[[cs d'] n'] log].
    unfold mbind, M_bind, bind, probe, mret, M_ret, ret. simpl in Hrun.
    unfold mbind, M_bind, bind, geocode_row, mret, M_ret, ret in Hrun.
    destruct (smart_geocode (cell_str (street nan_row)) (cell_str (house nan_row)) g cache w)
      as [[v|e] w1]; [|done].
    simpl. by injection Hrun as _ ->.
  - unfold mret, M_ret, ret. rewrite list_insert_id by done. rewrite app_nil_r. by destruct w.
Qed.

Lemma geocode_batch_length g rows d n cs d' n' log :
  geocode_batch g rows d n = (cs, d', n', log) -> length cs = length rows.
Proof.
  intros [Hrun|(-> & -> & _)]%geocode_batch_cases; [|done].
  by eapply geocode_rows_length.
Qed.

Lemma geocode_batch_lookup g rows d n cs d' n' log :
  geocode_batch g rows d n = (cs, d', n', log) ->
  forall i r, rows !! i = Some r ->
  exists v, cs !! i = Some v /\ d' !! row_key r = Some v.
Proof.
  intros [Hrun|(-> & -> & _)]%geocode_batch_cases; [|done].
  by eapply geocode_rows_lookup.
Qed.


(** ** The key of an address *)

Lemma string_app_length (s t : string) :
  String.length (s +:+ t) = String.length s + String.length t.
Proof.
  induction s as [|a s IH]; [reflexivity|].
  change (S (String.length (s +:+ t)) = S (String.length s + String.length t)).
  by rewrite IH.
Qed.

Lemma string_app_inj_r (s1 s2 t : string) : s1 +:+ t = s2 +:+ t -> s1 = s2.
Proof.
  revert s2. induction s1 as [|a s1 IH]; intros [|b s2] Heq.
  - done.
  - apply (f_equal String.length) in Heq.
    change (String.length t = S (String.length (s2 +:+ t))) in Heq.
    rewrite string_app_length in Heq. lia.
  - apply (f_equal String.length) in Heq.
    change (S (String.length (s1 +:+ t)) = String.length t) in Heq.
    rewrite string_app_length in Heq. lia.
  - change (String a (s1 +:+ t) = String b (s2 +:+ t)) in Heq.
    injection Heq as -> Heq. f_equal. by apply IH.
Qed.

Lemma string_app_inj_l (s t1 t2 : string) : s +:+ t1 = s +:+ t2 -> t1 = t2.
Proof.
  induction s as [|a s IH]; [done|].
  change (String a (s +:+ t1) = String a (s +:+ t2) -> t1 = t2).
  intros [= Heq]. by apply IH.
Qed.

Lemma key_inj_street street1 street2 house :
  key street1 house = key street2 house -> street1 = street2.
Proof. unfold key. apply string_app_inj_r. Qed.

Lemma key_inj_house street house1 house2 :
  key street house1 = key street house2 -> house1 = house2.
Proof.
  unfold key. intros Heq. apply string_app_inj_l in Heq.
  by apply (string_app_inj_l "_") in Heq.
Qed.

Lemma string_app_space_ne (s : string) : s +:+ " " <> s.
Proof.
  intros Heq. apply (f_equal String.length) in Heq.
  rewrite string_app_length in Heq. simpl in Heq. lia.
Qed.

(** C4, as the script has it: the key is the street and the house joined by
    an underscore, nothing is trimmed or folded.  The key is defined for
    every pair of strings and determines each of the two given the other, so
    a street or a house with a space added at the end gets another key. *)
Theorem key_keeps_trailing_space (street house : string) :
  key street house = street +:+ "_" +:+ house
  /\ (forall street', key street' house = key street house -> street' = street)
  /\ (forall house', key street house' = key street house -> house' = house)
  /\ key (street +:+ " ") house <> key street house
  /\ key street (house +:+ " ") <> key street house.
Proof.
  split; [reflexivity|]. split; [intros s'; apply key_inj_street|].
  split; [intros h'; apply key_inj_house|]. split.
  - intros Heq. apply key_inj_street in Heq. by apply string_app_space_ne in Heq.
  - intros Heq. apply key_inj_house in Heq. by apply string_app_space_ne in Heq.
Qed.

(** ** A lookup without result *)

(** C1, as the script has it: when the key is not in the cache and the
    geocoder returns no result, [smart_geocode] returns [None] and stores
    [None] under the key; from then on a call for the key returns [None]
    from the cache, whatever the geocoder would answer, and changes
    nothing: the geocoder is not called again. *)
Theorem smart_geocode_caches_no_result street house g cache w d :
  objs w !! cache = Some (Dict d) ->
  d !! key street house = None ->
  fst (g (address street house) (net_state w)) = None ->
  exists w',
    smart_geocode street house g cache w = (Ok None, w')
    /\ objs w' !! cache = Some (Dict (<[key street house := None]> d))
    /\ lookups w' = lookups w ++ [(key street house, address street house)]
    /\ forall g', smart_geocode street house g' cache w' = (Ok None, w').
Proof.
  intros Hd Hk Hg. pose proof (lookup_lt_Some _ _ _ Hd) as Hlt.
  rewrite (smart_geocode_run _ _ _ _ _ _ Hd), Hk, Hg. simpl.
  eexists. split; [reflexivity|]. simpl.
  assert (Hd' : <[cache := Dict (<[key street house := None]> d)]> (objs w) !! cache
                = Some (Dict (<[key street house := None]> d)))
    by by rewrite list_lookup_insert_eq.
  split; [done|]. split; [done|]. intros g'.
  erewrite smart_geocode_run by exact Hd'. by rewrite lookup_insert_eq.
Qed.

(** ** One lookup for a key *)


(** ** Preparation *)

Lemma insert_last {A} (l : list A) (x y : A) : <[length l := y]> (l ++ [x]) = l ++ [y].
Proof. rewrite insert_app_r_alt by done. by rewrite Nat.sub_diag. Qed.

Lemma getcol_last o g c w :
  objs w = o ++ [DataFrame g] ->
  getcol (length o) c w = (Ok (map (fun r => getitem r c) g), w).
Proof.
  intros Ho. unfold getcol. erewrite bind_ok; [reflexivity|].
  apply read_frame_run. rewrite Ho. by apply list_lookup_middle.
Qed.

Lemma setcol_last o g c values w :
  objs w = o ++ [DataFrame g] ->
  length values = length g ->
  setcol (length o) c values w
  = (Ok tt, set_objs (o ++ [DataFrame (zip_with (setitem c) values g)]) w).
Proof.
  intros Ho Hlen. unfold setcol. erewrite bind_ok; cycle 1.
  { apply read_frame_run. rewrite Ho. by apply list_lookup_middle. }
  rewrite Hlen, Nat.eqb_refl. unfold write. rewrite Ho.
  by rewrite insert_last.
Qed.

Lemma traverse_length {A B} (f : A -> result B) l ys :
  traverse f l = Ok ys -> length ys = length l.
Proof.
  revert ys. induction l as [|x l IH]; intros ys; simpl.
  - by intros [= <-].
  - destruct (f x); [|done]. destruct (traverse f l); [|done].
    intros [= <-]. simpl. by rewrite (IH _ eq_refl).
Qed.

(** The working copy of [prepare_dataframe], and whether the conversions
    went through: the rows kept, then one column after the other. *)
Definition kept (r : row) : bool := notna (street r) && notna (house r).

Definition prepare_frame (f : frame) : result unit * frame :=
  let col c (g : frame) := map (fun r => getitem r c) g in
  let f1 := select (zip_with andb (map notna (col COL_STREET f)) (map notna (col COL_HOUSE f))) f in
  let f2 := zip_with (setitem COL_STREET) (astype_str (col COL_STREET f1)) f1 in
  let f3 := zip_with (setitem COL_HOUSE) (astype_str (col COL_HOUSE f2)) f2 in
  match astype_int (fillna (Int 0) (col COL_COUNT f3)) with
  | Raise e => (Raise e, f3)
  | Ok c =>
      let f4 := zip_with (setitem COL_COUNT) c f3 in
      match to_datetime (col COL_DATE f4) with
      | Raise e => (Raise e, f4)
      | Ok t =>
          let f5 := zip_with (setitem COL_DATE) t f4 in
          (Ok tt,
           zip_with (setitem COL_CAT) (fillna (Text "Не указано") (col COL_CAT f5)) f5)
      end
  end.

Lemma copy_run df w f :
  objs w !! df = Some (DataFrame f) ->
  copy df w = (Ok (length (objs w)), set_objs (objs w ++ [DataFrame f]) w).
Proof. intros Hdf. unfold copy. by rewrite (bind_ok _ _ _ _ _ (read_frame_run _ _ _ Hdf)). Qed.

Lemma getitem_mask_last o g mask w :
  objs w = o ++ [DataFrame g] ->
  getitem_mask (length o) mask w
  = (Ok (length (o ++ [DataFrame g])),
     set_objs ((o ++ [DataFrame g]) ++ [DataFrame (select mask g)]) w).
Proof.
  intros Ho. unfold getitem_mask. erewrite bind_ok; cycle 1.
  { apply read_frame_run. rewrite Ho. by apply list_lookup_middle. }
  unfold alloc. by rewrite Ho.
Qed.

Lemma prepare_dataframe_run df_raw w f :
  objs w !! df_raw = Some (DataFrame f) ->
  prepare_dataframe df_raw w =
    (result_map (fun _ => S (length (objs w))) (fst (prepare_frame f)),
     set_objs (objs w ++ [DataFrame f; DataFrame (snd (prepare_frame f))]) w).
Proof.
  intros Hraw. unfold prepare_dataframe, prepare_frame.
  rewrite (bind_ok _ _ _ _ _ (copy_run _ _ _ Hraw)).
  erewrite bind_ok by (by apply (getcol_last (objs w) f)).
  erewrite bind_ok by (by apply (getcol_last (objs w) f)).
  erewrite bind_ok by (by apply (getitem_mask_last (objs w) f)).
  cbv zeta.
  assert (Hlast : S (length (objs w)) = length (objs w ++ [DataFrame f]))
    by (rewrite length_app; simpl; lia).
  assert (Hobjs : forall g, objs w ++ [DataFrame f; DataFrame g]
                            = (objs w ++ [DataFrame f]) ++ [DataFrame g])
    by (intros g; by rewrite <- app_assoc).
  rewrite Hlast. setoid_rewrite Hobjs.
  set (o := objs w ++ [DataFrame f]).
  set (f1 := select _ f).
  erewrite bind_ok by (by apply (getcol_last o f1)).
  erewrite bind_ok
    by (apply (setcol_last o f1); [done|unfold astype_str; by rewrite !length_map]).
  set (f2 := zip_with (setitem COL_STREET) _ f1).
  erewrite bind_ok by (by apply (getcol_last o f2)).
  erewrite bind_ok
    by (apply (setcol_last o f2); [done|unfold astype_str; by rewrite !length_map]).
  set (f3 := zip_with (setitem COL_HOUSE) _ f2).
  erewrite bind_ok by (by apply (getcol_last o f3)).
  destruct (astype_int _) as [c|e] eqn:Hc; cycle 1.
  { by erewrite bind_raise by reflexivity. }
  erewrite bind_ok by reflexivity.
  assert (Hlc : length c = length f3).
  { apply traverse_length in Hc. unfold fillna in Hc. by rewrite !length_map in Hc. }
  erewrite bind_ok by (by apply (setcol_last o f3)).
  set (f4 := zip_with (setitem COL_COUNT) c f3).
  erewrite bind_ok by (by apply (getcol_last o f4)).
  destruct (to_datetime _) as [t|e] eqn:Ht; cycle 1.
  { by erewrite bind_raise by reflexivity. }
  erewrite bind_ok by reflexivity.
  assert (Hlt : length t = length f4).
  { apply traverse_length in Ht. by rewrite !length_map in Ht. }
  erewrite bind_ok by (by apply (setcol_last o f4)).
  set (f5 := zip_with (setitem COL_DATE) t f4).
  erewrite bind_ok by (by apply (getcol_last o f5)).
  erewrite bind_ok
    by (apply (setcol_last o f5); [done|unfold fillna; by rewrite !length_map]).
  reflexivity.
Qed.

(** What [prepare_dataframe] makes of a row it keeps. *)
Definition fill_count (c : cell) : cell := if isna c then Int 0 else c.
Definition fill_category (c : cell) : cell := if isna c then Text "Не указано" else c.

Definition prepared_row (r r' : row) : Prop :=
  exists z t,
    cell_int (fill_count (count r)) = Ok z
    /\ cell_datetime (created_at r) = Ok t
    /\ r' = Row (Text (cell_str (street r))) (Text (cell_str (house r))) (Int z) t
              (fill_category (category r)) (lat r) (lon r).

Lemma select_kept (f : frame) :
  select (zip_with andb (map notna (map (fun r => getitem r COL_STREET) f))
                        (map notna (map (fun r => getitem r COL_HOUSE) f))) f
  = List.filter kept f.
Proof.
  induction f as [|r f IH]; [done|].
  change (select (kept r :: zip_with andb
                    (map notna (map (fun r => getitem r COL_STREET) f))
                    (map notna (map (fun r => getitem r COL_HOUSE) f))) (r :: f)
          = List.filter kept (r :: f)).
  cbn [select List.filter]. destruct (kept r); by rewrite IH.
Qed.

Lemma traverse_Forall2 {A B C} (h : B -> result C) (k : A -> B) l ys :
  traverse h (map k l) = Ok ys -> Forall2 (fun x y => h (k x) = Ok y) l ys.
Proof.
  revert ys. induction l as [|x l IH]; intros ys; simpl.
  - intros [= <-]. constructor.
  - destruct (h (k x)) eqn:Hx; [|done]. destruct (traverse h (map k l)); [|done].
    intros [= <-]. constructor; [done|by apply IH].
Qed.

Lemma map_Forall2 {A B} (k : A -> B) l : Forall2 (fun x y => y = k x) l (map k l).
Proof. induction l; constructor; done. Qed.

Lemma setitem_Forall2 c (P : row -> cell -> Prop) (f : frame) values :
  Forall2 P f values ->
  Forall2 (fun r r' => exists v, P r v /\ r' = setitem c v r) f
    (zip_with (setitem c) values f).
Proof. induction 1; simpl; constructor; eauto. Qed.

Lemma Forall2_compose {A B C} (R1 : A -> B -> Prop) (R2 : B -> C -> Prop) l1 l2 l3 :
  Forall2 R1 l1 l2 -> Forall2 R2 l2 l3 ->
  Forall2 (fun a c => exists b, R1 a b /\ R2 b c) l1 l3.
Proof.
  intros H12. revert l3. induction H12; intros l3 H23; inversion H23; subst;
    constructor; eauto.
Qed.

Lemma prepare_frame_ok f g :
  prepare_frame f = (Ok tt, g) -> Forall2 prepared_row (List.filter kept f) g.
Proof.
  unfold prepare_frame. cbv beta zeta. rewrite select_kept.
  set (f1 := List.filter kept f).
  set (f2 := zip_with (setitem COL_STREET) _ f1).
  set (f3 := zip_with (setitem COL_HOUSE) _ f2).
  destruct (astype_int _) as [c|e] eqn:Hc; [|done].
  set (f4 := zip_with (setitem COL_COUNT) c f3).
  destruct (to_datetime _) as [t|e] eqn:Ht; [|done].
  set (f5 := zip_with (setitem COL_DATE) t f4).
  intros [= <-].
  assert (H12 : Forall2 (fun r r' => exists v,
              v = Text (cell_str (getitem r COL_STREET)) /\ r' = setitem COL_STREET v r) f1 f2).
  { apply setitem_Forall2. unfold astype_str. rewrite map_map. apply map_Forall2. }
  assert (H23 : Forall2 (fun r r' => exists v,
              v = Text (cell_str (getitem r COL_HOUSE)) /\ r' = setitem COL_HOUSE v r) f2 f3).
  { apply setitem_Forall2. unfold astype_str. rewrite map_map. apply map_Forall2. }
  assert (H34 : Forall2 (fun r r' => exists v,
              result_map Int (cell_int (fill_count (getitem r COL_COUNT))) = Ok v
              /\ r' = setitem COL_COUNT v r) f3 f4).
  { apply setitem_Forall2. unfold astype_int, fillna in Hc. rewrite map_map in Hc.
    by apply traverse_Forall2 in Hc. }
  assert (H45 : Forall2 (fun r r' => exists v,
              cell_datetime (getitem r COL_DATE) = Ok v /\ r' = setitem COL_DATE v r) f4 f5).
  { apply setitem_Forall2. by apply traverse_Forall2 in Ht. }
  assert (H56 : Forall2 (fun r r' => exists v,
              v = fill_category (getitem r COL_CAT) /\ r' = setitem COL_CAT v r) f5
              (zip_with (setitem COL_CAT)
                 (fillna (Text "Не указано") (map (fun r => getitem r COL_CAT) f5)) f5)).
  { apply setitem_Forall2. unfold fillna. rewrite map_map. apply map_Forall2. }
  pose proof (Forall2_compose _ _ _ _ _
    (Forall2_compose _ _ _ _ _
      (Forall2_compose _ _ _ _ _
        (Forall2_compose _ _ _ _ _ H12 H23) H34) H45) H56) as Hall.
  eapply Forall2_impl; [exact Hall|]. clear.
  intros r r' (r5 & (r4 & (r3 & (r2 & Hs & Hh) & Hc) & Ht) & Hcat).
  destruct Hs as (? & -> & ->). destruct Hh as (? & -> & ->).
  destruct Hc as (vc & Hvc & ->). destruct Ht as (vt & Hvt & ->).
  destruct Hcat as (? & -> & ->). simpl in *.
  destruct (cell_int (fill_count (count r))) as [z|] eqn:Hz; [|done].
  injection Hvc as <-. exists z, vt. by repeat split.
Qed.

(** A kept row that does not convert makes the preparation raise. *)
Lemma prepare_frame_raise f r :
  r ∈ f -> kept r = true ->
  (forall z, cell_int (fill_count (count r)) <> Ok z)
  \/ (forall t, cell_datetime (created_at r) <> Ok t) ->
  exists e, fst (prepare_frame f) = Raise e.
Proof.
  intros Hin Hkept Hbad.
  destruct (prepare_frame f) as [[[]|e] g] eqn:Hrun; [|by exists e].
  exfalso. apply prepare_frame_ok in Hrun.
  assert (Hr : r ∈ List.filter kept f).
  { apply list_elem_of_In, filter_In. by rewrite <- list_elem_of_In. }
  apply list_elem_of_lookup in Hr as [i Hi].
  destruct (Forall2_lookup_l _ _ _ _ _ Hrun Hi) as (r' & _ & z & t & Hz & Ht & _).
  destruct Hbad as [Hbad|Hbad]; [by apply (Hbad z)|by apply (Hbad t)].
Qed.

(** ** The cache file *)

Lemma write_bytes_run path bytes : forall fs pre,
  fs !! path = Some pre ->
  foldl file_step fs (map (WriteByte path) bytes) = <[path := pre ++ bytes]> fs.
Proof.
  induction bytes as [|b bytes IH]; intros fs pre Hpre; simpl.
  - rewrite app_nil_r. by rewrite insert_id.
  - rewrite Hpre. simpl. erewrite IH by apply lookup_insert_eq.
    by rewrite insert_insert_eq, <- app_assoc.
Qed.

(** The file after the first [k] steps of a save: untouched, or the first
    [k - 1] bytes of the pickle. *)
Lemma save_cache_ops_take k d path fs :
  foldl file_step fs (take k (save_cache_ops d path)) =
    match k with
    | 0 => fs
    | S n => <[path := take n (pickle_dumps d)]> fs
    end.
Proof.
  destruct k as [|n]; [done|]. unfold save_cache_ops. simpl.
  rewrite <- fmap_take.
  erewrite (write_bytes_run path (take n (pickle_dumps d))) by apply lookup_insert_eq.
  by rewrite insert_insert_eq.
Qed.

Lemma save_cache_ops_run d path fs :
  foldl file_step fs (save_cache_ops d path) = <[path := pickle_dumps d]> fs.
Proof.
  unfold save_cache_ops. simpl.
  erewrite (write_bytes_run path (pickle_dumps d)) by apply lookup_insert_eq.
  by rewrite insert_insert_eq.
Qed.

Lemma save_cache_run cache path w d :
  objs w !! cache = Some (Dict d) ->
  save_cache cache path w = (Ok tt, set_files (<[path := pickle_dumps d]> (files w)) w).
Proof.
  intros Hd. unfold save_cache. rewrite (bind_ok _ _ _ _ _ (read_dict_run _ _ _ Hd)).
  unfold run_file_ops. by rewrite save_cache_ops_run.
Qed.

Lemma load_cache_run path w :
  load_cache path w =
    match files w !! path with
    | Some bytes =>
        match pickle_loads bytes with
        | Some d => (Ok (length (objs w)), set_objs (objs w ++ [Dict d]) w)
        | None => (Raise UnpicklingError, w)
        end
    | None => (Ok (length (objs w)), set_objs (objs w ++ [Dict ∅]) w)
    end.
Proof. unfold load_cache. destruct (files w !! path) as [b|]; [|done]. by destruct (pickle_loads b). Qed.

(** C9: a cache that is saved and then loaded from the same path is a dict
    equal to the one saved, and loading from a path where there is no file
    gives the empty dict, without an exception. *)
Theorem load_cache_after_save_cache cache path w d :
  (objs w !! cache = Some (Dict d) ->
   exists w',
     (save_cache cache path ≫= fun _ => load_cache path) w = (Ok (length (objs w)), w')
     /\ objs w' !! length (objs w) = Some (Dict d))
  /\ (files w !! path = None ->
      exists w',
        load_cache path w = (Ok (length (objs w)), w')
        /\ objs w' !! length (objs w) = Some (Dict ∅)).
Proof.
  split.
  - intros Hd. rewrite (bind_ok _ _ _ _ _ (save_cache_run _ _ _ _ Hd)).
    rewrite load_cache_run. simpl. rewrite lookup_insert_eq, pickle_loads_dumps.
    eexists. split; [reflexivity|]. simpl. by apply list_lookup_middle.
  - intros Hnone. rewrite load_cache_run, Hnone.
    eexists. split; [reflexivity|]. simpl. by apply list_lookup_middle.
Qed.

(** C5, as the script has it: [save_cache] writes into the file itself.
    Stopped before the first step it leaves the file as it was; stopped
    later and before the last byte, it leaves the first bytes of the new
    pickle in the file, which do not load, and nothing of what the file
    held; only after the last step the file holds the new dict.  Other
    files are not touched. *)
Theorem save_cache_interrupted_file k cache path w d :
  objs w !! cache = Some (Dict d) ->
  exists w',
    save_cache_interrupted k cache path w = (Ok tt, w')
    /\ (forall p, p <> path -> files w' !! p = files w !! p)
    /\ (k = 0 -> files w' = files w)
    /\ (0 < k <= length (pickle_dumps d) ->
        files w' !! path = Some (take (k - 1) (pickle_dumps d))
        /\ fst (load_cache path w') = Raise UnpicklingError)
    /\ (length (pickle_dumps d) < k ->
        files w' !! path = Some (pickle_dumps d)
        /\ w' = snd (save_cache cache path w)).
Proof.
  intros Hd. unfold save_cache_interrupted.
  rewrite (bind_ok _ _ _ _ _ (read_dict_run _ _ _ Hd)). unfold run_file_ops.
  rewrite save_cache_ops_take. eexists. split; [reflexivity|].
  rewrite (save_cache_run _ _ _ _ Hd). simpl.
  destruct k as [|n]; simpl.
  - split; [done|]. split; [done|]. split; intros; lia.
  - split; [intros p Hp; by rewrite lookup_insert_ne|]. split; [done|].
    rewrite Nat.sub_0_r. split.
    + intros [_ Hn]. rewrite lookup_insert_eq. split; [done|].
      rewrite load_cache_run. simpl. rewrite lookup_insert_eq.
      by rewrite pickle_loads_truncated by lia.
    + intros Hn. rewrite firstn_all2 by lia. by rewrite lookup_insert_eq.
Qed.

(** ** The filter *)

Lemma select_map {A} (p : A -> bool) (l : list A) : select (map p l) l = List.filter p l.
Proof. induction l as [|x l IH]; [done|]. simpl. destruct (p x); by rewrite IH. Qed.

Lemma elem_of_select_map {A} (p : A -> bool) (l : list A) x :
  x ∈ select (map p l) l <-> x ∈ l /\ p x = true.
Proof. rewrite select_map, !list_elem_of_In. apply filter_In. Qed.

Lemma filter_df_run df w f date_from date_to cats :
  objs w !! df = Some (DataFrame f) ->
  filter_df df date_from date_to cats w =
    (Ok (length (objs w)),
     set_objs (objs w ++ [DataFrame (select (map (filter_mask date_from date_to cats) f) f)]) w).
Proof. intros Hdf. unfold filter_df. by rewrite (bind_ok _ _ _ _ _ (read_frame_run _ _ _ Hdf)). Qed.

(** The category of the row is one of those asked for, or none was asked
    for. *)
Definition category_selected (cats : option (list string)) (r : row) : Prop :=
  match cats with
  | Some (c :: cs) => isin (category r) (c :: cs) = true
  | _ => True
  end.

Lemma filter_mask_true date_from date_to cats r ns :
  created_at r = Timestamp ns ->
  (Timestamp_of_date date_from <= ns)%Z ->
  (ns <= Timestamp_of_date date_to + Timedelta_days 1 - Timedelta_seconds 1)%Z ->
  category_selected cats r ->
  filter_mask date_from date_to cats r = true.
Proof.
  intros Ht Hlo Hhi Hcat. unfold filter_mask. rewrite Ht. simpl.
  assert (Hmask : (Timestamp_of_date date_from <=? ns)%Z
                  && (ns <=? Timestamp_of_date date_to + Timedelta_days 1
                             - Timedelta_seconds 1)%Z = true).
  { apply andb_true_iff. split; by apply Z.leb_le. }
  rewrite Hmask. by destruct cats as [[|c cs]|].
Qed.

Lemma filter_mask_false_late date_from date_to cats r ns :
  created_at r = Timestamp ns ->
  (Timestamp_of_date date_to + Timedelta_days 1 - Timedelta_seconds 1 < ns)%Z ->
  filter_mask date_from date_to cats r = false.
Proof.
  intros Ht Hhi. unfold filter_mask. rewrite Ht. simpl.
  assert (Hle : (ns <=? Timestamp_of_date date_to + Timedelta_days 1
                        - Timedelta_seconds 1)%Z = false) by by apply Z.leb_gt.
  rewrite Hle, andb_false_r. by destruct cats as [[|c cs]|].
Qed.

(** C8: the filter keeps the two ends of the range of dates.  For
    [date_from <= date_to] and a row of a category that is asked for, a row
    stamped 23:59:59 on [date_to] is kept, and so is one stamped 00:00:00 on
    [date_from]; a row stamped 00:00:00 on the day after [date_to] is never
    kept. *)
Theorem filter_df_inclusive df w f date_from date_to cats :
  objs w !! df = Some (DataFrame f) ->
  (date_from <= date_to)%Z ->
  exists g w',
    filter_df df date_from date_to cats w = (Ok (length (objs w)), w')
    /\ objs w' !! length (objs w) = Some (DataFrame g)
    /\ (forall r, r ∈ f -> category_selected cats r ->
          created_at r = Timestamp (Timestamp_of_date date_to + Timedelta_seconds 86399) ->
          r ∈ g)
    /\ (forall r, r ∈ f -> category_selected cats r ->
          created_at r = Timestamp (Timestamp_of_date date_from) ->
          r ∈ g)
    /\ (forall r, created_at r = Timestamp (Timestamp_of_date (date_to + 1)) -> r ∉ g).
Proof.
  intros Hdf Hdates. rewrite (filter_df_run _ _ _ _ _ _ Hdf).
  eexists. eexists. split; [reflexivity|]. simpl. split; [by apply list_lookup_middle|].
  unfold Timestamp_of_date, Timedelta_days, Timedelta_seconds, NS_PER_DAY, NS_PER_SECOND in *.
  split; [|split].
  - intros r Hr Hcat Ht. apply elem_of_select_map. split; [done|].
    eapply filter_mask_true; [exact Ht| | |exact Hcat];
      unfold Timestamp_of_date, Timedelta_days, Timedelta_seconds, NS_PER_DAY, NS_PER_SECOND;
      lia.
  - intros r Hr Hcat Ht. apply elem_of_select_map. split; [done|].
    eapply filter_mask_true; [exact Ht| | |exact Hcat];
      unfold Timestamp_of_date, Timedelta_days, Timedelta_seconds, NS_PER_DAY, NS_PER_SECOND;
      lia.
  - intros r Ht Hin. apply elem_of_select_map in Hin as [_ Hmask].
    erewrite filter_mask_false_late in Hmask; [done|exact Ht|].
    unfold Timestamp_of_date, Timedelta_days, Timedelta_seconds, NS_PER_DAY, NS_PER_SECOND.
    lia.
Qed.

(** ** What the preparation does *)

(** C10: [prepare_dataframe] works on a copy.  The frame it is given, and
    every other object there was, is the same after the call, also when the
    call raises; the frame returned is a new object. *)
Theorem prepare_dataframe_keeps_raw df_raw w f :
  objs w !! df_raw = Some (DataFrame f) ->
  objs (snd (prepare_dataframe df_raw w)) !! df_raw = Some (DataFrame f)
  /\ (forall i o, objs w !! i = Some o -> objs (snd (prepare_dataframe df_raw w)) !! i = Some o)
  /\ (forall df, fst (prepare_dataframe df_raw w) = Ok df ->
        df <> df_raw
        /\ exists g, objs (snd (prepare_dataframe df_raw w)) !! df = Some (DataFrame g)).
Proof.
  intros Hraw. rewrite (prepare_dataframe_run _ _ _ Hraw). simpl.
  assert (Hold : forall i o, objs w !! i = Some o ->
            (objs w ++ [DataFrame f; DataFrame (snd (prepare_frame f))]) !! i = Some o).
  { intros i o Hi. by apply lookup_app_l_Some. }
  split; [by apply Hold|]. split; [exact Hold|].
  intros df Hdf. destruct (fst (prepare_frame f)); [|done]. injection Hdf as <-.
  split; [apply lookup_lt_Some in Hraw; lia|].
  eexists. by rewrite (lookup_app_r _ _ (S (length (objs w)))), Nat.sub_succ_l, Nat.sub_diag by lia.
Qed.

Lemma trunc_nonneg q : (0 <= q)%Q -> (0 <= trunc q)%Z.
Proof.
  unfold Qle, trunc. simpl. intros Hq. apply Z.quot_pos; lia.
Qed.

Lemma trunc_negative q : (q <= -1)%Q -> (trunc q <= -1)%Z.
Proof.
  unfold Qle, trunc. simpl. intros Hq.
  assert (Hpos : (0 < - Qnum q ÷ Z.pos (Qden q))%Z) by (apply Z.quot_str_pos; lia).
  rewrite Z.quot_opp_l in Hpos by lia. lia.
Qed.

Lemma trunc_fraction q : (-1 < q)%Q -> (q < 1)%Q -> trunc q = 0%Z.
Proof.
  unfold Qlt, trunc. simpl. intros Hlo Hhi.
  destruct (Z.le_gt_cases 0 (Qnum q)) as [Hnum|Hnum].
  - apply Z.quot_small. lia.
  - assert (Hzero : (- Qnum q ÷ Z.pos (Qden q) = 0)%Z) by (apply Z.quot_small; lia).
    rewrite Z.quot_opp_l in Hzero by lia. lia.
Qed.

(** C7, as the script has it: the count of a row of the prepared frame is
    an integer; it is 0 when the count was missing, the integer itself when
    the count was an integer, negative or not, and the integer part of a
    float, towards zero.  So a float count that is not negative gives a
    count that is not negative, a float count of -1 or less gives a
    negative count, and a float count strictly between -1 and 1 gives 0. *)
Theorem prepare_dataframe_count df_raw w f df :
  objs w !! df_raw = Some (DataFrame f) ->
  fst (prepare_dataframe df_raw w) = Ok df ->
  exists g,
    objs (snd (prepare_dataframe df_raw w)) !! df = Some (DataFrame g)
    /\ Forall2 (fun r r' => exists z,
          count r' = Int z
          /\ (isna (count r) = true -> z = 0%Z)
          /\ (forall n, count r = Int n -> z = n)
          /\ (forall q, count r = Float q -> in_int64 (trunc q) = true ->
                z = trunc q /\ ((0 <= q)%Q -> (0 <= z)%Z)
                /\ ((q <= -1)%Q -> (z <= -1)%Z)
                /\ ((-1 < q)%Q -> (q < 1)%Q -> z = 0%Z)))
        (List.filter kept f) g.
Proof.
  intros Hraw. rewrite (prepare_dataframe_run _ _ _ Hraw). simpl.
  destruct (prepare_frame f) as [[[]|e] g] eqn:Hrun; [|done]. simpl. intros [= <-].
  exists g. split.
  { by rewrite (lookup_app_r _ _ (S (length (objs w)))), Nat.sub_succ_l, Nat.sub_diag by lia. }
  eapply Forall2_impl; [by apply prepare_frame_ok|].
  intros r r' (z & t & Hz & _ & ->). exists z. simpl. split; [done|].
  unfold fill_count in Hz. split; [|split].
  - intros Hna. rewrite Hna in Hz. simpl in Hz. by injection Hz.
  - intros n Hn. rewrite Hn in Hz. simpl in Hz.
    destruct (in_int64 n); [by injection Hz|done].
  - intros q Hq Hrange. rewrite Hq in Hz. simpl in Hz. rewrite Hrange in Hz.
    injection Hz as <-. split; [done|]. split; [apply trunc_nonneg|].
    split; [apply trunc_negative|apply trunc_fraction].
Qed.

Lemma prepare_dataframe_unparseable_date df_raw w f r e :
  objs w !! df_raw = Some (DataFrame f) ->
  r ∈ f -> notna (street r) = true -> notna (house r) = true ->
  cell_datetime (created_at r) = Raise e ->
  exists e', prepare_dataframe df_raw w
             = (Raise e', set_objs (objs w ++ [DataFrame f; DataFrame (snd (prepare_frame f))]) w).
Proof.
  intros Hraw Hr Hs Hh Ht. rewrite (prepare_dataframe_run _ _ _ Hraw).
  destruct (prepare_frame_raise f r Hr) as [e' He'].
  - unfold kept. by rewrite Hs, Hh.
  - right. intros t. by rewrite Ht.
  - exists e'. by rewrite He'.
Qed.

(** C6, as the script has it: a row with a street and a house whose
    timestamp cannot be read does not leave the batch alone; it ends it.
    [generate_map] raises in the preparation: no frame reaches the renderer,
    the geocoder is not called and no file is written; no row is set aside
    and nothing is counted. *)
Theorem generate_map_unparseable_date date_from date_to cats worksheet_name w f n r e :
  read_sheet GOOGLE_SHEET_ID SERVICE_ACCOUNT_JSON worksheet_name (net_state w) = (Ok f, n) ->
  r ∈ f -> notna (street r) = true -> notna (house r) = true ->
  cell_datetime (created_at r) = Raise e ->
  exists e' w',
    generate_map date_from date_to cats worksheet_name w = (Raise e', w')
    /\ maps w' = maps w /\ files w' = files w /\ lookups w' = lookups w.
Proof.
  intros Hread Hr Hs Hh Ht. unfold generate_map.
  assert (Hfetch : fetch_sheet_df GOOGLE_SHEET_ID SERVICE_ACCOUNT_JSON worksheet_name w
                   = (Ok (length (objs w)),
                      World (objs w ++ [DataFrame f]) (files w) n (lookups w) (maps w))).
  { unfold fetch_sheet_df. by rewrite Hread. }
  rewrite (bind_ok _ _ _ _ _ Hfetch).
  edestruct (prepare_dataframe_unparseable_date (length (objs w))
               (World (objs w ++ [DataFrame f]) (files w) n (lookups w) (maps w)) f r e)
    as [e' He']; try done.
  { simpl. by apply list_lookup_middle. }
  rewrite (bind_raise _ _ _ _ _ He'). exists e'. eexists. split; [reflexivity|]. done.
Qed.

(** ** The plausibility region

    The region is the disk of [MAX_DIST_KM] around [CENTER].  What follows
    is stated for a set [accepted] of coordinates that contains the region:
    the region itself, or the region and the coordinates that a cache file
    held before the script ran. *)

Definition in_region (c : Q * Q) : Prop := within_max_dist c = true.

Lemma setcol_run df c values w g :
  objs w !! df = Some (DataFrame g) ->
  length values = length g ->
  setcol df c values w
  = (Ok tt, set_objs (<[df := DataFrame (zip_with (setitem c) values g)]> (objs w)) w).
Proof.
  intros Hdf Hlen. unfold setcol. rewrite (bind_ok _ _ _ _ _ (read_frame_run _ _ _ Hdf)).
  by rewrite Hlen, Nat.eqb_refl.
Qed.

Lemma dropna_run df subset w g :
  objs w !! df = Some (DataFrame g) ->
  dropna df subset w =
    (Ok (length (objs w)),
     set_objs (objs w ++ [DataFrame (select
        (map (fun r => forallb (fun c => notna (getitem r c)) subset) g) g)]) w).
Proof. intros Hdf. unfold dropna. by rewrite (bind_ok _ _ _ _ _ (read_frame_run _ _ _ Hdf)). Qed.

Lemma build_map_run df w g :
  objs w !! df = Some (DataFrame g) ->
  build_map df w
  = (Ok tt, World (objs w) (files w) (net_state w) (lookups w) (maps w ++ [g])).
Proof. intros Hdf. unfold build_map. by rewrite (bind_ok _ _ _ _ _ (read_frame_run _ _ _ Hdf)). Qed.

Lemma lookup_app_second {A} (l : list A) (x y : A) : (l ++ [x; y]) !! S (length l) = Some y.
Proof. rewrite lookup_app_r by lia. by rewrite Nat.sub_succ_l, Nat.sub_diag by lia. Qed.

Section Accepted.
Variable accepted : Q * Q -> Prop.
Hypothesis region_accepted : forall c, within_max_dist c = true -> accepted c.

(** The coordinates of a cache dict are accepted. *)
Definition cache_accepted (d : gmap string (option (Q * Q))) : Prop :=
  forall k c, d !! k = Some (Some c) -> accepted c.

Definition coord_accepted (v : option (Q * Q)) : Prop :=
  forall c, v = Some c -> accepted c.

Lemma validated_accepted loc : coord_accepted (validated loc).
Proof.
  intros c. unfold validated. destruct loc as [l|]; [|done].
  destruct (within_max_dist (latitude l, longitude l)) eqn:E; [|done].
  intros [= <-]. by apply region_accepted.
Qed.

Lemma cache_accepted_insert d k v :
  cache_accepted d -> coord_accepted v -> cache_accepted (<[k := v]> d).
Proof.
  intros Hd Hv k' c. rewrite lookup_insert. case_decide.
  - intros [= ->]. by apply Hv.
  - apply Hd.
Qed.

Lemma cache_accepted_empty : cache_accepted ∅.
Proof. intros k c. by rewrite lookup_empty. Qed.

Lemma geocode_rows_accepted g rows : forall d n cs d' n' log,
  geocode_rows g rows d n = (cs, d', n', log) ->
  cache_accepted d ->
  cache_accepted d' /\ Forall coord_accepted cs.
Proof.
  induction rows as [|r rows IH]; intros d n cs d' n' log Hrun Hd.
  - injection Hrun as <- <- <- <-. by split.
  - cbn [geocode_rows] in Hrun. destruct (d !! row_key r) as [v0|] eqn:Hr;
      geocode_rows_step IH rows Hrun.
    + destruct (IH Hd) as [IH1 IH2]. split; [done|].
      constructor; [|done]. intros c ->. by eapply Hd.
    + destruct IH as [IH1 IH2].
      { apply cache_accepted_insert; [done|apply validated_accepted]. }
      split; [done|]. constructor; [apply validated_accepted|done].
Qed.

Lemma geocode_batch_accepted g rows d n cs d' n' log :
  geocode_batch g rows d n = (cs, d', n', log) ->
  cache_accepted d ->
  cache_accepted d' /\ Forall coord_accepted cs.
Proof.
  intros [Hrun|(-> & -> & cs0 & Hrun)]%geocode_batch_cases Hd.
  - by eapply geocode_rows_accepted.
  - split; [|done]. by eapply geocode_rows_accepted.
Qed.

(** A row with a coordinate, an accepted one. *)
Definition located (r : row) : Prop :=
  exists la lo, lat r = Float la /\ lon r = Float lo /\ accepted (la, lo).

(** What the cache file holds, if it is there and loads, is accepted. *)
Definition cache_file_accepted (w : world) : Prop :=
  forall bytes d,
    files w !! GEOCACHE_FILE = Some bytes -> pickle_loads bytes = Some d ->
    cache_accepted d.

Lemma located_rows cs : forall g : frame,
  length cs = length g ->
  Forall coord_accepted cs ->
  Forall (fun r => forallb (fun c => notna (getitem r c)) [COL_LAT; COL_LON] = true -> located r)
    (zip_with (setitem COL_LON) (map coord_lon cs)
       (zip_with (setitem COL_LAT) (map coord_lat cs) g)).
Proof.
  induction cs as [|c cs IH]; intros [|r g] Hlen Hcs; simpl in *; try done.
  inversion Hcs as [|? ? Hc Hcs']; subst.
  constructor; [|apply IH; [lia|done]].
  destruct c as [[la lo]|]; simpl; [|done].
  intros _. exists la, lo. split; [done|]. split; [done|]. by apply Hc.
Qed.

(** After a run: what the cache file holds is accepted, and the renderer
    got nothing, or one frame of located rows. *)
Definition accepted_kept (w w' : world) : Prop :=
  cache_file_accepted w'
  /\ (maps w' = maps w \/ exists f, maps w' = maps w ++ [f] /\ Forall located f).

Lemma accepted_kept_failure (w w' : world) :
  cache_file_accepted w -> files w' = files w -> maps w' = maps w ->
  accepted_kept w w'.
Proof.
  intros Hw Hf Hm. split; [|by left]. unfold cache_file_accepted. by rewrite Hf.
Qed.

(** [generate_map] from the geocoding on, with the prepared frame and the
    cache in the store. *)
Lemma geocode_and_render_accepted_kept date_from date_to cats w0 w df cache g d0 :
  maps w = maps w0 ->
  objs w !! df = Some (DataFrame g) ->
  objs w !! cache = Some (Dict d0) ->
  df <> cache ->
  cache_accepted d0 ->
  accepted_kept w0 (snd (
    (df_apply df (fun r =>
       smart_geocode (cell_str (street r)) (cell_str (house r)) geocode cache)
     ≫= fun coords => setcol df COL_LAT (map coord_lat coords)
     ≫= fun _ => setcol df COL_LON (map coord_lon coords)
     ≫= fun _ => save_cache cache GEOCACHE_FILE
     ≫= fun _ => dropna df [COL_LAT; COL_LON]
     ≫= fun df0 => lift (date_fromisoformat date_from)
     ≫= fun d_from => lift (date_fromisoformat date_to)
     ≫= fun d_to => filter_df df0 d_from d_to cats
     ≫= fun df_filt => build_map df_filt) w)).
Proof.
  intros Hmaps Hdf Hcache Hne Hd0.
  pose proof (lookup_lt_Some _ _ _ Hdf) as Hltdf.
  pose proof (lookup_lt_Some _ _ _ Hcache) as Hltcache.
  (* the rows are geocoded *)
  pose proof (df_apply_geocode_run geocode df cache w g d0 Hdf Hcache) as Happly.
  destruct (geocode_batch geocode g d0 (net_state w)) as [[[cs d'] n'] log] eqn:E.
  rewrite (bind_ok _ _ _ _ _ Happly). clear Happly.
  pose proof (geocode_batch_length _ _ _ _ _ _ _ _ E) as Hlen.
  destruct (geocode_batch_accepted _ _ _ _ _ _ _ _ E Hd0) as [Hd' Hcs].
  (* the two columns *)
  erewrite bind_ok; cycle 1.
  { apply (setcol_run df COL_LAT _ _ g).
    - cbn [objs]. by rewrite list_lookup_insert_ne.
    - by rewrite length_map. }
  unfold set_objs. cbn [objs files net_state lookups maps].
  set (g1 := zip_with (setitem COL_LAT) (map coord_lat cs) g).
  erewrite bind_ok; cycle 1.
  { apply (setcol_run df COL_LON _ _ g1).
    - cbn [objs]. rewrite list_lookup_insert_eq; [done|]. by rewrite length_insert.
    - unfold g1. rewrite length_map, length_zip_with, length_map. lia. }
  unfold set_objs. cbn [objs files net_state lookups maps].
  set (g2 := zip_with (setitem COL_LON) (map coord_lon cs) g1).
  rewrite list_insert_insert_eq.
  (* the cache is saved *)
  erewrite bind_ok; cycle 1.
  { apply (save_cache_run cache GEOCACHE_FILE _ d'). cbn [objs].
    rewrite list_lookup_insert_ne by done. by rewrite list_lookup_insert_eq. }
  unfold set_files. cbn [objs files net_state lookups maps].
  assert (Hsaved : forall w', files w' = <[GEOCACHE_FILE := pickle_dumps d']> (files w) ->
                              cache_file_accepted w').
  { intros w' Hw' bytes d. rewrite Hw', lookup_insert_eq. intros [= <-].
    rewrite pickle_loads_dumps. by intros [= <-]. }
  (* rows without a coordinate are dropped *)
  erewrite bind_ok; cycle 1.
  { apply (dropna_run df _ _ g2). cbn [objs].
    rewrite list_lookup_insert_eq; [done|]. by rewrite length_insert. }
  unfold set_objs. cbn [objs files net_state lookups maps].
  set (h := select _ g2).
  set (o := <[df := DataFrame g2]> (<[cache := Dict d']> (objs w))).
  (* the dates *)
  destruct (date_fromisoformat date_from) as [d_from|e] eqn:Hfrom.
  2:{ erewrite bind_raise by reflexivity. split; [by apply Hsaved|by left]. }
  erewrite bind_ok by reflexivity.
  destruct (date_fromisoformat date_to) as [d_to|e] eqn:Hto.
  2:{ erewrite bind_raise by reflexivity. split; [by apply Hsaved|by left]. }
  erewrite bind_ok by reflexivity.
  (* the filter and the map *)
  erewrite bind_ok; cycle 1.
  { apply (filter_df_run _ _ h). cbn [objs]. by apply list_lookup_middle. }
  unfold set_objs. cbn [objs files net_state lookups maps].
  erewrite build_map_run; cycle 1.
  { cbn [objs]. by apply list_lookup_middle. }
  split; [by apply Hsaved|]. right. cbn [snd maps]. rewrite Hmaps.
  eexists. split; [reflexivity|].
  apply Forall_forall. intros r Hr.
  apply elem_of_select_map in Hr as [Hr _]. unfold h in Hr.
  apply elem_of_select_map in Hr as [Hr Hnotna].
  pose proof (located_rows cs g Hlen Hcs) as Hloc.
  rewrite Forall_forall in Hloc. by apply (Hloc r).
Qed.

Lemma generate_map_accepted_kept date_from date_to cats worksheet_name w :
  cache_file_accepted w ->
  accepted_kept w (snd (generate_map date_from date_to cats worksheet_name w)).
Proof.
  intros Hfile. unfold generate_map.
  (* the sheet *)
  destruct (read_sheet GOOGLE_SHEET_ID SERVICE_ACCOUNT_JSON worksheet_name (net_state w))
    as [[f|e] n] eqn:Hread.
  2:{ erewrite bind_raise by (unfold fetch_sheet_df; by rewrite Hread).
      by apply accepted_kept_failure. }
  erewrite bind_ok by (unfold fetch_sheet_df; by rewrite Hread).
  unfold alloc, set_objs. cbn [objs files net_state lookups maps].
  set (o0 := objs w ++ [DataFrame f]).
  (* the preparation *)
  match goal with |- context [(prepare_dataframe _ ≫= _) ?w1] =>
    pose proof (prepare_dataframe_run (length (objs w)) w1 f) as Hprep end.
  cbn [objs] in Hprep. specialize (Hprep (list_lookup_middle _ _ _ _ eq_refl)).
  fold o0 in Hprep.
  destruct (prepare_frame f) as [[[]|e] g] eqn:Hframe; simpl in Hprep.
  2:{ rewrite (bind_raise _ _ _ _ _ Hprep). by apply accepted_kept_failure. }
  rewrite (bind_ok _ _ _ _ _ Hprep). clear Hprep.
  unfold set_objs. cbn [objs files net_state lookups maps].
  set (o2 := o0 ++ [DataFrame f; DataFrame g]).
  assert (Hdf2 : o2 !! S (length o0) = Some (DataFrame g)) by apply lookup_app_second.
  assert (Hlen2 : S (length o0) < length o2) by (by apply lookup_lt_Some in Hdf2).
  (* the cache *)
  match goal with |- context [(load_cache _ ≫= _) ?w2] =>
    pose proof (load_cache_run GEOCACHE_FILE w2) as Hload end.
  cbn [objs files] in Hload.
  destruct (files w !! GEOCACHE_FILE) as [bytes|] eqn:Hbytes.
  - destruct (pickle_loads bytes) as [d0|] eqn:Hloads.
    2:{ rewrite (bind_raise _ _ _ _ _ Hload). by apply accepted_kept_failure. }
    rewrite (bind_ok _ _ _ _ _ Hload). clear Hload.
    apply (geocode_and_render_accepted_kept _ _ _ _ _ _ _ g d0); cbn [objs maps].
    + done.
    + by apply lookup_app_l_Some.
    + by apply list_lookup_middle.
    + lia.
    + by apply (Hfile bytes).
  - rewrite (bind_ok _ _ _ _ _ Hload). clear Hload.
    apply (geocode_and_render_accepted_kept _ _ _ _ _ _ _ g ∅); cbn [objs maps].
    + done.
    + by apply lookup_app_l_Some.
    + by apply list_lookup_middle.
    + lia.
    + apply cache_accepted_empty.
Qed.

Lemma invocations_accepted_kept l : forall w,
  cache_file_accepted w ->
  Forall (Forall located) (maps w) ->
  cache_file_accepted (invocations l w)
  /\ Forall (Forall located) (maps (invocations l w)).
Proof.
  induction l as [|i l IH]; intros w Hfile Hmaps; [done|]. simpl.
  destruct (generate_map_accepted_kept (arg_from i) (arg_to i) (arg_cats i) (arg_sheet i)
              (new_process (outside_change i) w)) as [Hfile' Hmaps']; [done|].
  apply IH; [done|]. simpl in Hmaps'.
  destruct Hmaps' as [->|(f & -> & Hf)]; [done|].
  apply Forall_app. split; [done|]. by constructor.
Qed.

End Accepted.

(** A coordinate of the cache file of a world. *)
Definition in_cache_file (w : world) (c : Q * Q) : Prop :=
  exists bytes d k,
    files w !! GEOCACHE_FILE = Some bytes /\ pickle_loads bytes = Some d
    /\ d !! k = Some (Some c).

(** Whatever the cache file holds at the start, a run adds only coordinates
    of the region, to the file and to the map. *)
Lemma generate_map_adds_region_only date_from date_to cats worksheet_name w :
  accepted_kept (fun c => in_region c \/ in_cache_file w c) w
    (snd (generate_map date_from date_to cats worksheet_name w)).
Proof.
  apply generate_map_accepted_kept; [by left|].
  intros bytes d Hbytes Hloads k c Hk. right. by exists bytes, d, k.
Qed.

(** C2: a coordinate farther from [CENTER] than [MAX_DIST_KM] is not
    resolved.  [smart_geocode] with a cache whose coordinates are in the
    region returns a coordinate of the region or [None] and leaves such a
    cache; on a miss for which the geocoder returns a location outside the
    region it returns [None] and stores [None].  [generate_map], run with a
    cache file whose coordinates are in the region (or with none), leaves
    such a cache file, and every row of the frame it hands to the renderer
    has a coordinate in the region.  So it is after any number of
    invocations of the script that started without a cache file.  A hit
    returns the entry of the cache as it is: whatever a cache file held
    before a run, the run adds only coordinates of the region, to the file
    and to the map. *)
Theorem far_coordinate_never_resolved :
  (forall street house g cache w d,
     objs w !! cache = Some (Dict d) ->
     cache_accepted in_region d ->
     exists v w' d',
       smart_geocode street house g cache w = (Ok v, w')
       /\ coord_accepted in_region v
       /\ objs w' !! cache = Some (Dict d')
       /\ cache_accepted in_region d'
       /\ (forall l,
             d !! key street house = None ->
             fst (g (address street house) (net_state w)) = Some l ->
             within_max_dist (latitude l, longitude l) = false ->
             v = None /\ d' !! key street house = Some None))
  /\ (forall date_from date_to cats worksheet_name w,
       cache_file_accepted in_region w ->
       accepted_kept in_region w
         (snd (generate_map date_from date_to cats worksheet_name w)))
  /\ (forall l w,
       files w !! GEOCACHE_FILE = None ->
       maps w = [] ->
       cache_file_accepted in_region (invocations l w)
       /\ Forall (Forall (located in_region)) (maps (invocations l w)))
  /\ (forall date_from date_to cats worksheet_name w,
       accepted_kept (fun c => in_region c \/ in_cache_file w c) w
         (snd (generate_map date_from date_to cats worksheet_name w))).
Proof.
  split; [|split; [intros; by apply generate_map_accepted_kept|
                   split; [|intros; apply generate_map_adds_region_only]]].
  2:{ intros l w Hnone Hmaps. apply invocations_accepted_kept; [done| |].
      - intros bytes d. by rewrite Hnone.
      - rewrite Hmaps. constructor. }
  intros street house g cache w d Hd Hregion.
  pose proof (lookup_lt_Some _ _ _ Hd) as Hlt.
  rewrite (smart_geocode_run _ _ _ _ _ _ Hd).
  destruct (d !! key street house) as [v|] eqn:Hk.
  - exists v, w, d. split; [done|]. split; [intros c ->; by eapply Hregion|].
    split; [done|]. split; [done|]. done.
  - eexists. eexists. eexists. split; [reflexivity|]. cbn [objs].
    split; [by apply validated_accepted|].
    split; [by apply list_lookup_insert_eq|].
    split; [apply cache_accepted_insert; [done|by apply validated_accepted]|].
    intros l _ Hl Hfar. rewrite Hl. simpl. rewrite Hfar.
    split; [done|apply lookup_insert_eq].
Qed.

End Properties.

(** * Runs in the reference world *)

Section Reference.
#[local] Existing Instance reference.

(** A geocoder that is down: every call ends without a result. *)
Definition geocoder_down (a : string) (n : net) : option Location * net :=
  (None, n).

Definition empty_cache_world : world := World [Dict ∅] ∅ sample_net [] [].

(** C4 as stated fails: a street with a space at the end has another key. *)
Lemma key_trailing_space_differs :
  key "Ленина " "5" = "Ленина _5"
  /\ key "Ленина" "5" = "Ленина_5"
  /\ bool_decide (key "Ленина " "5" = key "Ленина" "5") = false.
Proof. repeat split; reflexivity. Qed.

Definition cached_none_world : world :=
  World [Dict {[ "Ленина_5" := None ]}] ∅ sample_net
    [("Ленина_5", "Ленина, 5, Зеленодольск, Республика Татарстан, Россия")] [].

(** C1 as stated fails: after a call that got no result the key is in the
    cache, with [None], and a next call with a geocoder that knows the
    address does not ask it. *)
Lemma no_result_is_cached :
  smart_geocode "Ленина" "5" geocoder_down 0 empty_cache_world
  = (Ok None, cached_none_world)
  /\ objs cached_none_world !! 0 = Some (Dict {[ "Ленина_5" := None ]})
  /\ geocode (address "Ленина" "5") (net_state cached_none_world)
     = (Some lenina_5, sample_net)
  /\ smart_geocode "Ленина" "5" geocode 0 cached_none_world
     = (Ok None, cached_none_world).
Proof.
  split; [|split; [reflexivity|split; [reflexivity|]]].
  - rewrite (smart_geocode_run "Ленина" "5" geocoder_down 0 empty_cache_world ∅ eq_refl).
    reflexivity.
  - rewrite (smart_geocode_run "Ленина" "5" geocode 0
               cached_none_world {[ "Ленина_5" := None ]} eq_refl).
    reflexivity.
Qed.

Lemma smart_geocode_caches_no_result_witness :
  exists w',
    smart_geocode "Ленина" "5" geocoder_down 0 empty_cache_world = (Ok None, w')
    /\ objs w' !! 0 = Some (Dict (<[key "Ленина" "5" := None]> ∅))
    /\ lookups w' = [] ++ [(key "Ленина" "5", address "Ленина" "5")]
    /\ forall g', smart_geocode "Ленина" "5" g' 0 w' = (Ok None, w').
Proof.
  apply (smart_geocode_caches_no_result "Ленина" "5" geocoder_down 0
           empty_cache_world ∅); reflexivity.
Defined.

(** ** The sample sheet *)

(** A run on the sample sheet, from no cache file.  The geocoder is asked
    once for each of the two keys; the address in Kazan is outside the
    region and is stored as [None]; the two rows of the first address are
    rendered, with the same coordinate. *)
Example sample_run :
  fst (generate_map "2025-06-01" "2025-06-30" None None sample_world) = Ok tt
  /\ lookups (snd (generate_map "2025-06-01" "2025-06-30" None None sample_world))
     = [(key "Ленина" "5", address "Ленина" "5"); (key "Баумана" "1", address "Баумана" "1")]
  /\ objs (snd (generate_map "2025-06-01" "2025-06-30" None None sample_world)) !! 3
     = Some (Dict {[ "Ленина_5" := Some (55.8466, 48.5012)%Q; "Баумана_1" := None ]})
  /\ maps (snd (generate_map "2025-06-01" "2025-06-30" None None sample_world))
     = [[Row (Text "Ленина") (Text "5") (Int 3) (Timestamp 1751241600000000000)
           (Text "вода") (Float 55.8466) (Float 48.5012);
         Row (Text "Ленина") (Text "5") (Int 0) (Timestamp 1748736000000000000)
           (Text "Не указано") (Float 55.8466) (Float 48.5012)]].
Proof. vm_compute. repeat split; reflexivity. Qed.

Lemma far_coordinate_never_resolved_witness :
  cache_file_accepted in_region sample_world
  /\ accepted_kept in_region sample_world
       (snd (generate_map "2025-06-01" "2025-06-30" None None sample_world)).
Proof.
  assert (Hfile : cache_file_accepted in_region sample_world) by (intros bytes d; done).
  split; [exact Hfile|].
  exact (proj1 (proj2 far_coordinate_never_resolved)
           "2025-06-01" "2025-06-30" None None sample_world Hfile).
Defined.

(** ** Rows of one key *)

Definition prepared_rows : frame := [
  Row (Text "Ленина") (Text "5") (Int 3) (Timestamp 1751241600000000000) (Text "вода") NA NA;
  Row (Text "Баумана") (Text "1") (Int 2) (Timestamp 1749945600000000000) (Text "вода") NA NA;
  Row (Text "Ленина") (Text "5") (Int 0) (Timestamp 1748736000000000000) (Text "Не указано") NA NA
].

Definition geocoding_world : world :=
  World [DataFrame prepared_rows; Dict ∅] ∅ sample_net [] [].


(** ** The cache file *)

Definition old_cache : gmap string (option (Q * Q)) :=
  {[ "Ленина_5" := Some (55.8466, 48.5012)%Q ]}.

Definition new_cache : gmap string (option (Q * Q)) :=
  {[ "Ленина_5" := Some (55.8466, 48.5012)%Q; "Баумана_1" := None ]}.

(** The end of a run: the cache dict in the store, the file of the run
    before on the disk. *)
Definition saving_world : world :=
  World [Dict new_cache] {[ GEOCACHE_FILE := pickle_dumps old_cache ]} sample_net [] [].

(** C5 as stated fails: a save that stops after the file was opened leaves
    an empty file.  Before, the file loaded as the old cache; now it does
    not load, and holds neither the old cache nor the new one, whose pickles
    are not empty. *)
Lemma save_cache_interrupted_loses_file :
  (exists w', load_cache GEOCACHE_FILE saving_world = (Ok 1, w')
              /\ objs w' !! 1 = Some (Dict old_cache))
  /\ files (snd (save_cache_interrupted 1 0 GEOCACHE_FILE saving_world)) !! GEOCACHE_FILE
     = Some []
  /\ fst (load_cache GEOCACHE_FILE (snd (save_cache_interrupted 1 0 GEOCACHE_FILE saving_world)))
     = Raise UnpicklingError
  /\ Nat.ltb 0 (length (pickle_dumps old_cache)) = true
  /\ Nat.ltb 0 (length (pickle_dumps new_cache)) = true.
Proof.
  split; [|split; [|split; [|split]]].
  - rewrite load_cache_run. simpl. rewrite lookup_singleton_eq.
    rewrite reference_loads_dumps. eexists. split; reflexivity.
  - reflexivity.
  - reflexivity.
  - simpl. unfold reference_dumps. rewrite length_app. simpl. apply Nat.ltb_lt. lia.
  - simpl. unfold reference_dumps. rewrite length_app. simpl. apply Nat.ltb_lt. lia.
Qed.

Lemma save_cache_interrupted_file_witness :
  exists w',
    save_cache_interrupted 1 0 GEOCACHE_FILE saving_world = (Ok tt, w')
    /\ (forall p, p <> GEOCACHE_FILE -> files w' !! p = files saving_world !! p)
    /\ (1 = 0 -> files w' = files saving_world)
    /\ (0 < 1 <= length (pickle_dumps new_cache) ->
        files w' !! GEOCACHE_FILE = Some (take (1 - 1) (pickle_dumps new_cache))
        /\ fst (load_cache GEOCACHE_FILE w') = Raise UnpicklingError)
    /\ (length (pickle_dumps new_cache) < 1 ->
        files w' !! GEOCACHE_FILE = Some (pickle_dumps new_cache)
        /\ w' = snd (save_cache 0 GEOCACHE_FILE saving_world)).
Proof.
  apply (save_cache_interrupted_file 1 0 GEOCACHE_FILE saving_world new_cache).
  reflexivity.
Defined.

Lemma load_cache_after_save_cache_witness :
  exists w',
    (save_cache 0 GEOCACHE_FILE ≫= fun _ => load_cache GEOCACHE_FILE) saving_world
    = (Ok (length (objs saving_world)), w')
    /\ objs w' !! length (objs saving_world) = Some (Dict new_cache).
Proof.
  apply (proj1 (load_cache_after_save_cache 0 GEOCACHE_FILE saving_world new_cache)).
  reflexivity.
Defined.

(** ** The preparation *)

Definition unreadable_date_sheet : frame := [
  Row (Text "Ленина") (Int 5) (Int 3) (Text "2025-06-30") (Text "вода") NA NA;
  Row (Text "Баумана") (Text "1") (Int 1) (Text "вчера") (Text "вода") NA NA
].

Definition unreadable_date_net : reference_net :=
  {| sheet := unreadable_date_sheet; gazetteer := gazetteer sample_net |}.

Definition unreadable_date_world : world := World [] ∅ unreadable_date_net [] [].

(** C6 as stated fails: one row with a timestamp that cannot be read, and
    the run ends with an exception; the row with the good timestamp is not
    rendered either, and nothing is counted. *)
Lemma unreadable_date_ends_batch :
  fst (generate_map "2025-06-01" "2025-06-30" None None unreadable_date_world)
  = Raise ValueError
  /\ maps (snd (generate_map "2025-06-01" "2025-06-30" None None unreadable_date_world)) = []
  /\ lookups (snd (generate_map "2025-06-01" "2025-06-30" None None unreadable_date_world)) = []
  /\ files (snd (generate_map "2025-06-01" "2025-06-30" None None unreadable_date_world))
       !! GEOCACHE_FILE = None.
Proof. vm_compute. repeat split; reflexivity. Qed.

Lemma generate_map_unparseable_date_witness :
  exists e' w',
    generate_map "2025-06-01" "2025-06-30" None None unreadable_date_world = (Raise e', w')
    /\ maps w' = maps unreadable_date_world
    /\ files w' = files unreadable_date_world
    /\ lookups w' = lookups unreadable_date_world.
Proof.
  apply (generate_map_unparseable_date "2025-06-01" "2025-06-30" None None
           unreadable_date_world unreadable_date_sheet unreadable_date_net
           (Row (Text "Баумана") (Text "1") (Int 1) (Text "вчера") (Text "вода") NA NA)
           ValueError); try reflexivity.
  apply list_elem_of_further, list_elem_of_here.
Defined.

Definition negative_count_sheet : frame := [
  Row (Text "Ленина") (Int 5) (Int (-3)) (Text "2025-06-30") (Text "вода") NA NA;
  Row (Text "Ленина") (Int 7) NA (Text "2025-06-30") (Text "вода") NA NA;
  Row (Text "Ленина") (Int 9) (Float (-2.7)) (Text "2025-06-30") (Text "вода") NA NA
].

Definition negative_count_world : world :=
  World [DataFrame negative_count_sheet] ∅ sample_net [] [].

(** C7 as stated fails: a count of -3 is -3 in the prepared frame, and -2.7
    becomes -2. *)
Lemma negative_count_is_kept :
  fst (prepare_dataframe 0 negative_count_world) = Ok 2
  /\ objs (snd (prepare_dataframe 0 negative_count_world)) !! 2
     = Some (DataFrame [
         Row (Text "Ленина") (Text "5") (Int (-3)) (Timestamp 1751241600000000000)
           (Text "вода") NA NA;
         Row (Text "Ленина") (Text "7") (Int 0) (Timestamp 1751241600000000000)
           (Text "вода") NA NA;
         Row (Text "Ленина") (Text "9") (Int (-2)) (Timestamp 1751241600000000000)
           (Text "вода") NA NA]).
Proof. vm_compute. split; reflexivity. Qed.

Lemma prepare_dataframe_count_witness :
  exists g,
    objs (snd (prepare_dataframe 0 negative_count_world)) !! 2 = Some (DataFrame g)
    /\ Forall2 (fun r r' => exists z,
          count r' = Int z
          /\ (isna (count r) = true -> z = 0%Z)
          /\ (forall n, count r = Int n -> z = n)
          /\ (forall q, count r = Float q -> in_int64 (trunc q) = true ->
                z = trunc q /\ ((0 <= q)%Q -> (0 <= z)%Z)
                /\ ((q <= -1)%Q -> (z <= -1)%Z)
                /\ ((-1 < q)%Q -> (q < 1)%Q -> z = 0%Z)))
        (List.filter kept negative_count_sheet) g.
Proof.
  apply (prepare_dataframe_count 0 negative_count_world negative_count_sheet 2).
  - reflexivity.
  - vm_compute. reflexivity.
Defined.

Lemma prepare_dataframe_keeps_raw_witness :
  objs (snd (prepare_dataframe 0 negative_count_world)) !! 0
  = Some (DataFrame negative_count_sheet)
  /\ (forall i o, objs negative_count_world !! i = Some o ->
        objs (snd (prepare_dataframe 0 negative_count_world)) !! i = Some o)
  /\ (forall df, fst (prepare_dataframe 0 negative_count_world) = Ok df ->
        df <> 0
        /\ exists g, objs (snd (prepare_dataframe 0 negative_count_world)) !! df
                     = Some (DataFrame g)).
Proof.
  apply (prepare_dataframe_keeps_raw 0 negative_count_world negative_count_sheet).
  reflexivity.
Defined.

(** ** The filter *)

(** June 2025: the first second, the last second, and the first second of
    July. *)
Definition june_rows : frame := [
  Row (Text "Ленина") (Text "5") (Int 1) (Timestamp 1748736000000000000) (Text "вода") NA NA;
  Row (Text "Ленина") (Text "5") (Int 1) (Timestamp 1751327999000000000) (Text "вода") NA NA;
  Row (Text "Ленина") (Text "5") (Int 1) (Timestamp 1751328000000000000) (Text "вода") NA NA
].

Definition filter_world : world := World [DataFrame june_rows] ∅ sample_net [] [].

Example filter_june :
  objs (snd (filter_df 0 20240 20269 None filter_world)) !! 1
  = Some (DataFrame (take 2 june_rows)).
Proof. vm_compute. reflexivity. Qed.

Lemma filter_df_inclusive_witness :
  exists g w',
    filter_df 0 20240 20269 None filter_world = (Ok (length (objs filter_world)), w')
    /\ objs w' !! length (objs filter_world) = Some (DataFrame g)
    /\ (forall r, r ∈ june_rows -> category_selected None r ->
          created_at r = Timestamp (Timestamp_of_date 20269 + Timedelta_seconds 86399) ->
          r ∈ g)
    /\ (forall r, r ∈ june_rows -> category_selected None r ->
          created_at r = Timestamp (Timestamp_of_date 20240) ->
          r ∈ g)
    /\ (forall r, created_at r = Timestamp (Timestamp_of_date (20269 + 1)) -> r ∉ g).
Proof.
  apply (filter_df_inclusive 0 filter_world june_rows 20240 20269 None).
  - reflexivity.
  - lia.
Defined.

End Reference.

(** * More of the script *)

Section Geocoding.
Context `{Externals}.

(** ** One call of [smart_geocode] *)

(** A hit: the entry of the key is returned and nothing happens, neither a
    call of the geocoder nor a write, whatever the geocoder is. *)
Theorem smart_geocode_hit street house g cache w d v :
  objs w !! cache = Some (Dict d) ->
  d !! key street house = Some v ->
  smart_geocode street house g cache w = (Ok v, w).
Proof. intros Hd Hk. by rewrite (smart_geocode_run _ _ _ _ _ _ Hd), Hk. Qed.

(** A miss for which the geocoder returns a location within [MAX_DIST_KM]:
    the tuple of its latitude and longitude is returned and stored under the
    key, and the one call is the one for the address of the pair. *)
Theorem smart_geocode_miss_resolved street house g cache w d l n :
  objs w !! cache = Some (Dict d) ->
  d !! key street house = None ->
  g (address street house) (net_state w) = (Some l, n) ->
  within_max_dist (latitude l, longitude l) = true ->
  exists w',
    smart_geocode street house g cache w = (Ok (Some (latitude l, longitude l)), w')
    /\ objs w' !! cache
       = Some (Dict (<[key street house := Some (latitude l, longitude l)]> d))
    /\ lookups w' = lookups w ++ [(key street house, address street house)]
    /\ net_state w' = n.
Proof.
  intros Hd Hk Hg Hnear. pose proof (lookup_lt_Some _ _ _ Hd) as Hlt.
  rewrite (smart_geocode_run _ _ _ _ _ _ Hd), Hk, Hg. simpl. rewrite Hnear.
  eexists. split; [reflexivity|]. simpl. by rewrite list_lookup_insert_eq.
Qed.

(** Whatever the outcome, [smart_geocode] does not raise; afterwards the key
    is in the cache with the value returned, every entry the cache had is as
    it was, and apart from the cache dict nothing of the store, no file and
    no map is touched. *)
Theorem smart_geocode_grows_cache street house g cache w d :
  objs w !! cache = Some (Dict d) ->
  exists v w' d',
    smart_geocode street house g cache w = (Ok v, w')
    /\ objs w' !! cache = Some (Dict d')
    /\ d' !! key street house = Some v
    /\ (forall k x, d !! k = Some x -> d' !! k = Some x)
    /\ (forall k, k <> key street house -> d' !! k = d !! k)
    /\ (forall i, i <> cache -> objs w' !! i = objs w !! i)
    /\ files w' = files w
    /\ maps w' = maps w.
Proof.
  intros Hd. pose proof (lookup_lt_Some _ _ _ Hd) as Hlt.
  rewrite (smart_geocode_run _ _ _ _ _ _ Hd).
  destruct (d !! key street house) as [v|] eqn:Hk.
  - exists v, w, d. by repeat split.
  - eexists. eexists. eexists. split; [reflexivity|]. simpl.
    split; [by rewrite list_lookup_insert_eq|].
    split; [apply lookup_insert_eq|].
    split.
    { intros k x Hx. rewrite lookup_insert_ne; [done|]. intros Heq.
      rewrite <- Heq in Hx. congruence. }
    split; [intros k Hne; by rewrite lookup_insert_ne|].
    split; [intros i Hne; by rewrite list_lookup_insert_ne|]. done.
Qed.

(** ** Keys that coincide *)

Lemma string_app_assoc (s t u : string) : (s +:+ t) +:+ u = s +:+ (t +:+ u).
Proof.
  induction s as [|a s IH]; [reflexivity|].
  change (String a ((s +:+ t) +:+ u) = String a (s +:+ (t +:+ u))). by rewrite IH.
Qed.

(** The key does not tell where the street ends: a street [s_t] with house
    [h] and a street [s] with house [t_h] have one key, though not one
    address.  Whichever of the two pairs comes second gets the coordinate
    of the first, and the geocoder is not asked for its address. *)
Theorem key_collision street middle house g cache w d :
  objs w !! cache = Some (Dict d) ->
  key (street +:+ "_" +:+ middle) house = key street (middle +:+ "_" +:+ house)
  /\ address (street +:+ "_" +:+ middle) house <> address street (middle +:+ "_" +:+ house)
  /\ (exists v w',
       smart_geocode (street +:+ "_" +:+ middle) house g cache w = (Ok v, w')
       /\ forall g', smart_geocode street (middle +:+ "_" +:+ house) g' cache w' = (Ok v, w'))
  /\ (exists v w',
       smart_geocode street (middle +:+ "_" +:+ house) g cache w = (Ok v, w')
       /\ forall g', smart_geocode (street +:+ "_" +:+ middle) house g' cache w' = (Ok v, w')).
Proof.
  intros Hd.
  assert (Hkey : key (street +:+ "_" +:+ middle) house
                 = key street (middle +:+ "_" +:+ house)).
  { unfold key. by rewrite !string_app_assoc. }
  split; [exact Hkey|]. split.
  - unfold address. rewrite !string_app_assoc. intros Heq.
    apply string_app_inj_l in Heq. discriminate Heq.
  - pose proof (lookup_lt_Some _ _ _ Hd) as Hlt. split.
    + rewrite (smart_geocode_run _ _ _ _ _ _ Hd).
      destruct (d !! key (street +:+ "_" +:+ middle) house) as [v|] eqn:Hk.
      * exists v, w. split; [done|]. intros g'.
        by rewrite (smart_geocode_run _ _ _ _ _ _ Hd), <- Hkey, Hk.
      * eexists. eexists. split; [reflexivity|]. intros g'.
        erewrite smart_geocode_run by (simpl; by apply list_lookup_insert_eq).
        by rewrite <- Hkey, lookup_insert_eq.
    + rewrite (smart_geocode_run _ _ _ _ _ _ Hd).
      destruct (d !! key street (middle +:+ "_" +:+ house)) as [v|] eqn:Hk.
      * exists v, w. split; [done|]. intros g'.
        by rewrite (smart_geocode_run _ _ _ _ _ _ Hd), Hkey, Hk.
      * eexists. eexists. split; [reflexivity|]. intros g'.
        erewrite smart_geocode_run by (simpl; by apply list_lookup_insert_eq).
        by rewrite Hkey, lookup_insert_eq.
Qed.

(** ** The batch, once more *)

Lemma geocode_rows_again g rows : forall d n cs d' n' log,
  geocode_rows g rows d n = (cs, d', n', log) ->
  forall g2 n2, geocode_rows g2 rows d' n2 = (cs, d', n2, []).
Proof.
  induction rows as [|r rows IH]; intros d n cs d' n' log Hrun g2 n2.
  - by injection Hrun as <- <- <- <-.
  - pose proof (geocode_rows_lookup _ _ _ _ _ _ _ _ Hrun 0 r eq_refl) as (v & Hv & Hkey).
    cbn [geocode_rows] in Hrun. cbn [geocode_rows]. rewrite Hkey.
    destruct (d !! row_key r) as [v0|] eqn:Hr.
    + destruct (geocode_rows g rows d n) as [[[cs1 d1] n1] log1] eqn:E.
      injection Hrun as <- <- <- <-. injection Hv as <-.
      by rewrite (IH _ _ _ _ _ _ E g2 n2).
    + match type of Hrun with context [geocode_rows g rows ?d0 ?n0] =>
        destruct (geocode_rows g rows d0 n0) as [[[cs1 d1] n1] log1] eqn:E end.
      injection Hrun as <- <- <- <-. injection Hv as <-.
      by rewrite (IH _ _ _ _ _ _ E g2 n2).
Qed.

Lemma geocode_batch_again g rows d n cs d' n' log :
  geocode_batch g rows d n = (cs, d', n', log) ->
  forall g2 n2, geocode_batch g2 rows d' n2 = (cs, d', n2, []).
Proof.
  intros Hrun g2 n2. unfold geocode_batch in *. destruct rows as [|r rows].
  - destruct apply_probes_empty; [|by injection Hrun as <- <- <- <-].
    destruct (geocode_rows g [nan_row] d n) as [[[cs0 d0] n0] log0] eqn:E.
    injection Hrun as <- <- <- <-.
    by rewrite (geocode_rows_again _ _ _ _ _ _ _ _ E g2 n2).
  - by eapply geocode_rows_again.
Qed.

(** The geocoding of a frame, done a second time on the same cache, gives
    the same coordinates without a call of the geocoder, whatever the
    geocoder would answer then, and leaves the cache as it is. *)
Theorem df_apply_geocode_twice g g2 df cache rows w d :
  objs w !! df = Some (DataFrame rows) ->
  objs w !! cache = Some (Dict d) ->
  exists coords w',
    df_apply df (fun r =>
      smart_geocode (cell_str (street r)) (cell_str (house r)) g cache) w = (Ok coords, w')
    /\ df_apply df (fun r =>
         smart_geocode (cell_str (street r)) (cell_str (house r)) g2 cache) w'
       = (Ok coords, w').
Proof.
  intros Hdf Hd. pose proof (lookup_lt_Some _ _ _ Hd) as Hlt.
  rewrite (df_apply_geocode_run g df cache w rows d Hdf Hd).
  destruct (geocode_batch g rows d (net_state w)) as [[[cs d'] n'] log] eqn:E.
  eexists. eexists. split; [reflexivity|].
  assert (Hne : df <> cache) by (intros ->; congruence).
  erewrite (df_apply_geocode_run g2 df cache _ rows d'); cycle 1.
  { simpl. by rewrite list_lookup_insert_ne. }
  { simpl. by rewrite list_lookup_insert_eq. }
  simpl. rewrite (geocode_batch_again _ _ _ _ _ _ _ _ E g2 n').
  by rewrite list_insert_insert_eq, app_nil_r.
Qed.

End Geocoding.

Section Frames.
Context `{Externals}.

(** ** Saving *)

(** [save_cache] replaces whatever the file held, also what did not load,
    by the pickle of the dict; it touches no other file, and nothing of
    the store, the maps or the log of calls. *)
Theorem save_cache_replaces_file cache path w d :
  objs w !! cache = Some (Dict d) ->
  exists w',
    save_cache cache path w = (Ok tt, w')
    /\ files w' !! path = Some (pickle_dumps d)
    /\ fst (load_cache path w') = Ok (length (objs w))
    /\ (forall p, p <> path -> files w' !! p = files w !! p)
    /\ objs w' = objs w /\ lookups w' = lookups w /\ maps w' = maps w.
Proof.
  intros Hd. rewrite (save_cache_run _ _ _ _ Hd). eexists. split; [reflexivity|].
  simpl. split; [apply lookup_insert_eq|]. split.
  { rewrite load_cache_run. simpl. by rewrite lookup_insert_eq, pickle_loads_dumps. }
  split; [intros p Hp; by rewrite lookup_insert_ne|]. done.
Qed.

(** ** The rows of the prepared frame *)

Lemma traverse_raise_elem {A B} (h : A -> result B) l e :
  traverse h l = Raise e -> exists x, x ∈ l /\ h x = Raise e.
Proof.
  induction l as [|x l IH]; simpl; [done|].
  destruct (h x) as [y|e'] eqn:Hx.
  - destruct (traverse h l) as [ys|e'] eqn:Hl; [done|]. intros [= <-].
    destruct (IH eq_refl) as (x' & Hin & Hx'). exists x'. split; [by right|done].
  - intros [= <-]. exists x. split; [by left|done].
Qed.

Lemma Forall2_elem_of_r {A B} (R : A -> B -> Prop) l1 l2 y :
  Forall2 R l1 l2 -> y ∈ l2 -> exists x, x ∈ l1 /\ R x y.
Proof.
  intros HR Hy. apply list_elem_of_lookup in Hy as [i Hi].
  destruct (Forall2_lookup_r _ _ _ _ _ HR Hi) as (x & Hx & Hxy).
  exists x. split; [|done]. apply list_elem_of_lookup. eauto.
Qed.

(** The conversions of a kept row go through. *)
Definition converts (r : row) : Prop :=
  (exists z, cell_int (fill_count (count r)) = Ok z)
  /\ (exists t, cell_datetime (created_at r) = Ok t).

Lemma prepare_frame_succeeds f :
  Forall converts (List.filter kept f) -> fst (prepare_frame f) = Ok tt.
Proof.
  intros Hall. unfold prepare_frame. cbv beta zeta. rewrite select_kept.
  set (f1 := List.filter kept f) in *.
  set (f2 := zip_with (setitem COL_STREET) _ f1).
  set (f3 := zip_with (setitem COL_HOUSE) _ f2).
  assert (H12 : Forall2 (fun r r' => exists v,
              v = Text (cell_str (getitem r COL_STREET)) /\ r' = setitem COL_STREET v r) f1 f2).
  { apply setitem_Forall2. unfold astype_str. rewrite map_map. apply map_Forall2. }
  assert (H23 : Forall2 (fun r r' => exists v,
              v = Text (cell_str (getitem r COL_HOUSE)) /\ r' = setitem COL_HOUSE v r) f2 f3).
  { apply setitem_Forall2. unfold astype_str. rewrite map_map. apply map_Forall2. }
  pose proof (Forall2_compose _ _ _ _ _ H12 H23) as H13.
  destruct (astype_int _) as [c|e] eqn:Hc.
  - set (f4 := zip_with (setitem COL_COUNT) c f3).
    assert (H34 : Forall2 (fun r r' => exists v,
                result_map Int (cell_int (fill_count (getitem r COL_COUNT))) = Ok v
                /\ r' = setitem COL_COUNT v r) f3 f4).
    { apply setitem_Forall2. unfold astype_int, fillna in Hc. rewrite map_map in Hc.
      by apply traverse_Forall2 in Hc. }
    pose proof (Forall2_compose _ _ _ _ _ H13 H34) as H14.
    destruct (to_datetime _) as [t|e] eqn:Ht; [done|]. exfalso.
    unfold to_datetime in Ht. apply traverse_raise_elem in Ht as (x & Hx & Hbad).
    apply list_elem_of_fmap in Hx as (r4 & -> & Hr4).
    destruct (Forall2_elem_of_r _ _ _ _ H14 Hr4) as (r1 & Hr1 & r3 & (r2 & Hs & Hh) & Hcnt).
    destruct Hs as (? & -> & ->). destruct Hh as (? & -> & ->).
    destruct Hcnt as (vc & _ & ->). simpl in Hbad.
    rewrite Forall_forall in Hall. destruct (Hall r1 Hr1) as [_ [t Hconv]].
    rewrite Hconv in Hbad. done.
  - exfalso. unfold astype_int, fillna in Hc. rewrite map_map in Hc.
    apply traverse_raise_elem in Hc as (x & Hx & Hbad).
    apply list_elem_of_fmap in Hx as (r3 & -> & Hr3).
    destruct (Forall2_elem_of_r _ _ _ _ H13 Hr3) as (r1 & Hr1 & r2 & Hs & Hh).
    destruct Hs as (? & -> & ->). destruct Hh as (? & -> & ->). simpl in Hbad.
    rewrite Forall_forall in Hall. destruct (Hall r1 Hr1) as [[z Hconv] _].
    fold (fill_count (count r1)) in Hbad. rewrite Hconv in Hbad. done.
Qed.

(** [prepare_dataframe] returns if and only if the count and the timestamp
    of every row that has a street and a house convert.  A row without
    street or house is dropped before anything is converted: what its
    count and its timestamp hold raises nothing. *)
Theorem prepare_dataframe_succeeds_iff df_raw w f :
  objs w !! df_raw = Some (DataFrame f) ->
  (exists df, fst (prepare_dataframe df_raw w) = Ok df)
  <-> Forall (fun r => notna (street r) && notna (house r) = true -> converts r) f.
Proof.
  intros Hraw. rewrite (prepare_dataframe_run _ _ _ Hraw). simpl. split.
  - intros [df Hdf]. destruct (prepare_frame f) as [[[]|e] g] eqn:Hrun; [|done].
    apply prepare_frame_ok in Hrun. apply Forall_forall. intros r Hr Hkept.
    assert (Hin : r ∈ List.filter kept f).
    { apply list_elem_of_In, filter_In. by rewrite <- list_elem_of_In. }
    apply list_elem_of_lookup in Hin as [i Hi].
    destruct (Forall2_lookup_l _ _ _ _ _ Hrun Hi) as (r' & _ & z & t & Hz & Ht & _).
    split; eauto.
  - intros Hall. rewrite prepare_frame_succeeds; [by eexists|].
    apply Forall_forall. intros r Hr. apply list_elem_of_In, filter_In in Hr as [Hr Hkept].
    rewrite Forall_forall in Hall. apply Hall; [by apply list_elem_of_In|done].
Qed.

(** The frame that [prepare_dataframe] returns has one row for each raw row
    with a street and a house, in the order of the sheet.  Street and house
    are strings, the count an integer, the timestamp a timestamp or [NaT],
    the category is filled in where it was missing, and the columns [lat]
    and [lon] are as they were. *)
Theorem prepare_dataframe_rows df_raw w f df :
  objs w !! df_raw = Some (DataFrame f) ->
  fst (prepare_dataframe df_raw w) = Ok df ->
  exists g,
    objs (snd (prepare_dataframe df_raw w)) !! df = Some (DataFrame g)
    /\ length g = length (List.filter (fun r => notna (street r) && notna (house r)) f)
    /\ Forall2 (fun r r' =>
          street r' = Text (cell_str (street r))
          /\ house r' = Text (cell_str (house r))
          /\ (exists z, count r' = Int z)
          /\ (created_at r' = NaT \/ exists ns, created_at r' = Timestamp ns)
          /\ (isna (created_at r) = true -> created_at r' = NaT)
          /\ category r' = (if isna (category r) then Text "Не указано" else category r)
          /\ isna (category r') = false
          /\ lat r' = lat r /\ lon r' = lon r)
        (List.filter (fun r => notna (street r) && notna (house r)) f) g.
Proof.
  intros Hraw. rewrite (prepare_dataframe_run _ _ _ Hraw). simpl.
  destruct (prepare_frame f) as [[[]|e] g] eqn:Hrun; [|done]. simpl. intros [= <-].
  exists g. split; [apply lookup_app_second|].
  apply prepare_frame_ok in Hrun. split; [symmetry; by eapply Forall2_length|].
  eapply Forall2_impl; [exact Hrun|].
  intros r r' (z & t & Hz & Ht & ->). simpl.
  split; [done|]. split; [done|]. split; [by exists z|].
  assert (Hdate : (t = NaT \/ exists ns, t = Timestamp ns)
                  /\ (isna (created_at r) = true -> t = NaT)).
  { unfold cell_datetime in Ht. destruct (created_at r); simpl in *;
      try (injection Ht as <-; split; [eauto|done]);
      destruct (datetime_of_value _); simpl in Ht; try done;
      injection Ht as <-; split; eauto; done. }
  destruct Hdate as [Hd1 Hd2]. split; [done|]. split; [done|]. split; [done|].
  split; [|done]. unfold fill_category. by destruct (isna (category r)) eqn:E.
Qed.

(** ** The rows of the filtered frame *)

(** [filter_df] makes a new frame and leaves every object as it was.  A row
    is in the new frame exactly when it is in the old one with a timestamp
    from midnight of [date_from] up to one second before midnight after
    [date_to], and a category that is asked for; with no list of categories
    or an empty one every category is.  The rows keep their order. *)
Theorem filter_df_rows df w f date_from date_to cats :
  objs w !! df = Some (DataFrame f) ->
  exists g w',
    filter_df df date_from date_to cats w = (Ok (length (objs w)), w')
    /\ objs w' !! length (objs w) = Some (DataFrame g)
    /\ (forall i o, objs w !! i = Some o -> objs w' !! i = Some o)
    /\ sublist g f
    /\ (forall r, r ∈ g <->
          r ∈ f
          /\ (exists ns,
                created_at r = Timestamp ns
                /\ (date_from * 86400000000000 <= ns)%Z
                /\ (ns <= (date_to + 1) * 86400000000000 - 1000000000)%Z)
          /\ match cats with
             | Some (c :: cs) => exists s, category r = Text s /\ s ∈ c :: cs
             | _ => True
             end).
Proof.
  intros Hdf. rewrite (filter_df_run _ _ _ _ _ _ Hdf).
  eexists. eexists. split; [reflexivity|]. simpl.
  split; [by apply list_lookup_middle|].
  split; [intros i o Hi; by apply lookup_app_l_Some|].
  split.
  { rewrite select_map. clear. induction f as [|r f IH]; simpl; [constructor|].
    destruct (filter_mask _ _ _ r); by constructor. }
  intros r. rewrite elem_of_select_map. apply and_iff_compat_l.
  unfold filter_mask, ge_timestamp, le_timestamp, Timestamp_of_date, Timedelta_days,
    Timedelta_seconds, NS_PER_DAY, NS_PER_SECOND.
  assert (Hcat : forall cs, isin (category r) cs = true
                            <-> exists s, category r = Text s /\ s ∈ cs).
  { intros cs. unfold isin. destruct (category r); split;
      try (intros (s0 & Hs & _); discriminate); try done.
    - intros Hin. apply bool_decide_eq_true in Hin. eauto.
    - intros (s0 & [= <-] & Hin). by apply bool_decide_eq_true. }
  destruct (created_at r) as [| |s|z|q|ns]; simpl;
    try (split; [by destruct cats as [[|c cs]|]|intros [(ns & Hns & _) _]; discriminate]).
  split.
  - intros Hmask.
    assert (Hd : (date_from * (86400 * 1000000000) <=? ns)%Z
                 && (ns <=? date_to * (86400 * 1000000000) + 1 * (86400 * 1000000000)
                            - 1 * 1000000000)%Z = true
                 /\ match cats with
                    | Some (c :: cs) => isin (category r) (c :: cs) = true
                    | _ => True
                    end).
    { destruct cats as [[|c cs]|]; [done| |done]. by apply andb_true_iff in Hmask. }
    destruct Hd as [Hd Hc]. apply andb_true_iff in Hd as [Hlo Hhi].
    apply Z.leb_le in Hlo, Hhi. split.
    + exists ns. split; [done|]. lia.
    + destruct cats as [[|c cs]|]; [done| |done]. by apply Hcat.
  - intros [(ns' & [= <-] & Hlo & Hhi) Hc].
    assert (Hd : (date_from * (86400 * 1000000000) <=? ns)%Z
                 && (ns <=? date_to * (86400 * 1000000000) + 1 * (86400 * 1000000000)
                            - 1 * 1000000000)%Z = true).
    { apply andb_true_iff. split; apply Z.leb_le; lia. }
    rewrite Hd. destruct cats as [[|c cs]|]; [done| |done]. simpl. by apply Hcat.
Qed.

(** The last second of [date_to] is cut after its first instant: a row
    stamped later than 23:59:59.000000000 on that day is not kept. *)
Theorem filter_df_last_second df w f date_from date_to cats r ns :
  objs w !! df = Some (DataFrame f) ->
  created_at r = Timestamp ns ->
  (Timestamp_of_date date_to + Timedelta_seconds 86399 < ns)%Z ->
  exists g w',
    filter_df df date_from date_to cats w = (Ok (length (objs w)), w')
    /\ objs w' !! length (objs w) = Some (DataFrame g)
    /\ r ∉ g.
Proof.
  intros Hdf Ht Hlate. rewrite (filter_df_run _ _ _ _ _ _ Hdf).
  eexists. eexists. split; [reflexivity|]. simpl. split; [by apply list_lookup_middle|].
  intros Hin. apply elem_of_select_map in Hin as [_ Hmask].
  erewrite filter_mask_false_late in Hmask; [done|exact Ht|].
  unfold Timestamp_of_date, Timedelta_days, Timedelta_seconds, NS_PER_DAY, NS_PER_SECOND in *.
  lia.
Qed.

(** A range that ends before it starts keeps no row. *)
Theorem filter_df_inverted_range df w f date_from date_to cats :
  objs w !! df = Some (DataFrame f) ->
  (date_to < date_from)%Z ->
  exists w',
    filter_df df date_from date_to cats w = (Ok (length (objs w)), w')
    /\ objs w' !! length (objs w) = Some (DataFrame []).
Proof.
  intros Hdf Hinv. rewrite (filter_df_run _ _ _ _ _ _ Hdf).
  eexists. split; [reflexivity|]. simpl.
  assert (Hnone : select (map (filter_mask date_from date_to cats) f) f = []).
  { rewrite select_map. clear Hdf. induction f as [|r f IH]; [done|]. simpl.
    assert (Hr : filter_mask date_from date_to cats r = false).
    { unfold filter_mask, ge_timestamp, le_timestamp, Timestamp_of_date, Timedelta_days,
        Timedelta_seconds, NS_PER_DAY, NS_PER_SECOND.
      destruct (created_at r) as [| |s|z|q|ns]; simpl;
        try (by destruct cats as [[|c cs]|]).
      assert (Hd : (date_from * (86400 * 1000000000) <=? ns)%Z
                   && (ns <=? date_to * (86400 * 1000000000) + 1 * (86400 * 1000000000)
                              - 1 * 1000000000)%Z = false).
      { apply andb_false_iff.
        destruct (Z.leb_spec (date_from * (86400 * 1000000000)) ns); [right|by left].
        apply Z.leb_gt. lia. }
      rewrite Hd. by destruct cats as [[|c cs]|]. }
    by rewrite Hr. }
  rewrite Hnone. by apply list_lookup_middle.
Qed.

End Frames.

Section Process.
Context `{Externals}.

(** ** A run of [generate_map], step by step *)

(** The cache that [load_cache] finds in the file of a world. *)
Definition cache_of_file (w : world) : result (gmap string (option (Q * Q))) :=
  match files w !! GEOCACHE_FILE with
  | Some bytes =>
      match pickle_loads bytes with
      | Some d => Ok d
      | None => Raise UnpicklingError
      end
  | None => Ok ∅
  end.

(** The two dates of the command line. *)
Definition parsed_dates (date_from date_to : string) : result (Z * Z) :=
  match date_fromisoformat date_from with
  | Raise e => Raise e
  | Ok a =>
      match date_fromisoformat date_to with
      | Raise e => Raise e
      | Ok b => Ok (a, b)
      end
  end.

(** The prepared frame with its two new columns. *)
Definition with_coords (cs : list (option (Q * Q))) (g : frame) : frame :=
  zip_with (setitem COL_LON) (map coord_lon cs) (zip_with (setitem COL_LAT) (map coord_lat cs) g).

Definition has_coords (r : row) : bool :=
  forallb (fun c => notna (getitem r c)) [COL_LAT; COL_LON].

(** The frame handed to [build_map]. *)
Definition rendered_rows (cs : list (option (Q * Q))) (g : frame)
    (d_from d_to : Z) (cats : option (list string)) : frame :=
  List.filter (filter_mask d_from d_to cats) (List.filter has_coords (with_coords cs g)).

Lemma geocode_and_render_run date_from date_to cats w df cache g d0 cs d' n' log :
  objs w !! df = Some (DataFrame g) ->
  objs w !! cache = Some (Dict d0) ->
  df <> cache ->
  geocode_batch geocode g d0 (net_state w) = (cs, d', n', log) ->
  exists o',
    (df_apply df (fun r =>
       smart_geocode (cell_str (street r)) (cell_str (house r)) geocode cache)
     ≫= fun coords => setcol df COL_LAT (map coord_lat coords)
     ≫= fun _ => setcol df COL_LON (map coord_lon coords)
     ≫= fun _ => save_cache cache GEOCACHE_FILE
     ≫= fun _ => dropna df [COL_LAT; COL_LON]
     ≫= fun df0 => lift (date_fromisoformat date_from)
     ≫= fun d_from => lift (date_fromisoformat date_to)
     ≫= fun d_to => filter_df df0 d_from d_to cats
     ≫= fun df_filt => build_map df_filt) w
    = (result_map (fun _ => tt) (parsed_dates date_from date_to),
       World o' (<[GEOCACHE_FILE := pickle_dumps d']> (files w)) n' (lookups w ++ log)
         match parsed_dates date_from date_to with
         | Ok (a, b) => maps w ++ [rendered_rows cs g a b cats]
         | Raise _ => maps w
         end).
Proof.
  intros Hdf Hcache Hne E.
  pose proof (lookup_lt_Some _ _ _ Hdf) as Hltdf.
  pose proof (lookup_lt_Some _ _ _ Hcache) as Hltcache.
  pose proof (df_apply_geocode_run geocode df cache w g d0 Hdf Hcache) as Happly.
  rewrite E in Happly. rewrite (bind_ok _ _ _ _ _ Happly). clear Happly.
  pose proof (geocode_batch_length _ _ _ _ _ _ _ _ E) as Hlen.
  erewrite bind_ok; cycle 1.
  { apply (setcol_run df COL_LAT _ _ g).
    - cbn [objs]. by rewrite list_lookup_insert_ne.
    - by rewrite length_map. }
  unfold set_objs. cbn [objs files net_state lookups maps].
  erewrite bind_ok; cycle 1.
  { apply (setcol_run df COL_LON _ _ (zip_with (setitem COL_LAT) (map coord_lat cs) g)).
    - cbn [objs]. rewrite list_lookup_insert_eq; [done|]. by rewrite length_insert.
    - rewrite length_map, length_zip_with, length_map. lia. }
  unfold set_objs. cbn [objs files net_state lookups maps].
  fold (with_coords cs g). rewrite list_insert_insert_eq.
  erewrite bind_ok; cycle 1.
  { apply (save_cache_run cache GEOCACHE_FILE _ d'). cbn [objs].
    rewrite list_lookup_insert_ne by done. by rewrite list_lookup_insert_eq. }
  unfold set_files. cbn [objs files net_state lookups maps].
  erewrite bind_ok; cycle 1.
  { apply (dropna_run df _ _ (with_coords cs g)). cbn [objs].
    rewrite list_lookup_insert_eq; [done|]. by rewrite length_insert. }
  unfold set_objs. cbn [objs files net_state lookups maps].
  change (fun r => forallb (fun c => notna (getitem r c)) [COL_LAT; COL_LON]) with has_coords.
  rewrite select_map. unfold parsed_dates.
  destruct (date_fromisoformat date_from) as [a|e] eqn:Hfrom.
  2:{ erewrite bind_raise by reflexivity. by eexists. }
  erewrite bind_ok by reflexivity.
  destruct (date_fromisoformat date_to) as [b|e] eqn:Hto.
  2:{ erewrite bind_raise by reflexivity. by eexists. }
  erewrite bind_ok by reflexivity.
  erewrite bind_ok; cycle 1.
  { apply (filter_df_run _ _ (List.filter has_coords (with_coords cs g))). cbn [objs].
    by apply list_lookup_middle. }
  unfold set_objs. cbn [objs files net_state lookups maps].
  erewrite build_map_run; cycle 1.
  { cbn [objs]. by apply list_lookup_middle. }
  cbn [objs files net_state lookups maps]. rewrite select_map. by eexists.
Qed.

Lemma generate_map_run date_from date_to cats worksheet_name w f n1 g d0 cs d' n' log :
  read_sheet GOOGLE_SHEET_ID SERVICE_ACCOUNT_JSON worksheet_name (net_state w) = (Ok f, n1) ->
  prepare_frame f = (Ok tt, g) ->
  cache_of_file w = Ok d0 ->
  geocode_batch geocode g d0 n1 = (cs, d', n', log) ->
  exists o',
    generate_map date_from date_to cats worksheet_name w
    = (result_map (fun _ => tt) (parsed_dates date_from date_to),
       World o' (<[GEOCACHE_FILE := pickle_dumps d']> (files w)) n' (lookups w ++ log)
         match parsed_dates date_from date_to with
         | Ok (a, b) => maps w ++ [rendered_rows cs g a b cats]
         | Raise _ => maps w
         end).
Proof.
  intros Hread Hframe Hfile E. unfold generate_map.
  erewrite bind_ok by (unfold fetch_sheet_df; by rewrite Hread).
  unfold alloc, set_objs. cbn [objs files net_state lookups maps].
  set (o0 := objs w ++ [DataFrame f]).
  match goal with |- context [(prepare_dataframe _ ≫= _) ?w1] =>
    pose proof (prepare_dataframe_run (length (objs w)) w1 f) as Hprep end.
  cbn [objs] in Hprep. specialize (Hprep (list_lookup_middle _ _ _ _ eq_refl)).
  fold o0 in Hprep. rewrite Hframe in Hprep. simpl in Hprep.
  rewrite (bind_ok _ _ _ _ _ Hprep). clear Hprep.
  unfold set_objs. cbn [objs files net_state lookups maps].
  set (o2 := o0 ++ [DataFrame f; DataFrame g]).
  assert (Hdf2 : o2 !! S (length o0) = Some (DataFrame g)) by apply lookup_app_second.
  assert (Hlen2 : S (length o0) < length o2) by (by apply lookup_lt_Some in Hdf2).
  match goal with |- context [(load_cache _ ≫= _) ?w2] =>
    pose proof (load_cache_run GEOCACHE_FILE w2) as Hload end.
  cbn [objs files] in Hload. unfold cache_of_file in Hfile.
  assert (Hload' : load_cache GEOCACHE_FILE
            (World o2 (files w) n1 (lookups w) (maps w))
          = (Ok (length o2), World (o2 ++ [Dict d0]) (files w) n1 (lookups w) (maps w))).
  { rewrite Hload. destruct (files w !! GEOCACHE_FILE) as [bytes|].
    - destruct (pickle_loads bytes); [|done]. by injection Hfile as ->.
    - by injection Hfile as <-. }
  rewrite (bind_ok _ _ _ _ _ Hload'). clear Hload Hload'.
  destruct (geocode_and_render_run date_from date_to cats
              (World (o2 ++ [Dict d0]) (files w) n1 (lookups w) (maps w))
              (S (length o0)) (length o2) g d0 cs d' n' log) as [o' Hrun];
    cbn [objs net_state].
  - by apply lookup_app_l_Some.
  - by apply list_lookup_middle.
  - lia.
  - done.
  - rewrite Hrun. by exists o'.
Qed.

(** ** Runs that end early *)

(** When the sheet cannot be read, [generate_map] raises what the reader
    raised and nothing else has happened: no object, no file, no call of
    the geocoder, no map. *)
Theorem generate_map_sheet_error date_from date_to cats worksheet_name w e n :
  read_sheet GOOGLE_SHEET_ID SERVICE_ACCOUNT_JSON worksheet_name (net_state w) = (Raise e, n) ->
  generate_map date_from date_to cats worksheet_name w
  = (Raise e, World (objs w) (files w) n (lookups w) (maps w)).
Proof.
  intros Hread. unfold generate_map.
  by erewrite bind_raise by (unfold fetch_sheet_df; by rewrite Hread).
Qed.

(** A cache file that does not load ends the run: [generate_map] raises
    before the geocoder is called, the file stays as it is and nothing is
    rendered.  The script does not start over with an empty cache. *)
Theorem generate_map_corrupt_cache date_from date_to cats worksheet_name w bytes :
  files w !! GEOCACHE_FILE = Some bytes ->
  pickle_loads bytes = None ->
  exists e w',
    generate_map date_from date_to cats worksheet_name w = (Raise e, w')
    /\ files w' = files w /\ lookups w' = lookups w /\ maps w' = maps w.
Proof.
  intros Hbytes Hloads. unfold generate_map.
  destruct (read_sheet GOOGLE_SHEET_ID SERVICE_ACCOUNT_JSON worksheet_name (net_state w))
    as [[f|e] n] eqn:Hread.
  2:{ erewrite bind_raise by (unfold fetch_sheet_df; by rewrite Hread).
      eexists. eexists. split; [reflexivity|]. done. }
  erewrite bind_ok by (unfold fetch_sheet_df; by rewrite Hread).
  unfold alloc, set_objs. cbn [objs files net_state lookups maps].
  match goal with |- context [(prepare_dataframe _ ≫= _) ?w1] =>
    pose proof (prepare_dataframe_run (length (objs w)) w1 f) as Hprep end.
  cbn [objs] in Hprep. specialize (Hprep (list_lookup_middle _ _ _ _ eq_refl)).
  destruct (prepare_frame f) as [[[]|e] g] eqn:Hframe; simpl in Hprep.
  2:{ rewrite (bind_raise _ _ _ _ _ Hprep). eexists. eexists. split; [reflexivity|]. done. }
  rewrite (bind_ok _ _ _ _ _ Hprep). clear Hprep.
  erewrite bind_raise; cycle 1.
  { rewrite load_cache_run. cbn [files set_objs]. by rewrite Hbytes, Hloads. }
  eexists. eexists. split; [reflexivity|]. done.
Qed.

(** ** Runs that reach the geocoding *)

Lemma geocode_batch_keeps g rows d n cs d' n' log :
  geocode_batch g rows d n = (cs, d', n', log) ->
  forall k v, d !! k = Some v -> d' !! k = Some v.
Proof.
  intros [Hrun|(-> & -> & cs0 & Hrun)]%geocode_batch_cases; by eapply geocode_rows_keeps.
Qed.

Lemma prepare_frame_converts f :
  Forall (fun r => notna (street r) && notna (house r) = true -> converts r) f ->
  exists g, prepare_frame f = (Ok tt, g).
Proof.
  intros Hall. destruct (prepare_frame f) as [r g] eqn:Hrun. exists g.
  assert (Hok : fst (prepare_frame f) = Ok tt).
  { apply prepare_frame_succeeds. apply Forall_forall. intros r0 Hr.
    apply list_elem_of_In, filter_In in Hr as [Hr Hkept].
    rewrite Forall_forall in Hall. apply Hall; [by apply list_elem_of_In|done]. }
  rewrite Hrun in Hok. simpl in Hok. by rewrite Hok.
Qed.

Lemma prepared_row_key r r' : prepared_row r r' -> row_key r' = row_key r.
Proof. by intros (z & t & _ & _ & ->). Qed.

(** The cache is saved before the dates are looked at.  When the sheet is
    read, its rows convert and the cache file loads, [generate_map] writes
    the cache file whether or not the two dates parse: the file then holds
    every entry it held before, unchanged, and an entry for the key of every
    row with a street and a house.  With a date that does not parse the run
    raises after that, and nothing is rendered. *)
Theorem generate_map_saves_before_dates date_from date_to cats worksheet_name w f n1 d0 :
  read_sheet GOOGLE_SHEET_ID SERVICE_ACCOUNT_JSON worksheet_name (net_state w) = (Ok f, n1) ->
  Forall (fun r => notna (street r) && notna (house r) = true -> converts r) f ->
  cache_of_file w = Ok d0 ->
  exists d',
    cache_of_file (snd (generate_map date_from date_to cats worksheet_name w)) = Ok d'
    /\ (forall k v, d0 !! k = Some v -> d' !! k = Some v)
    /\ (forall r, r ∈ f -> notna (street r) && notna (house r) = true ->
          is_Some (d' !! key (cell_str (street r)) (cell_str (house r))))
    /\ (forall e, parsed_dates date_from date_to = Raise e ->
          fst (generate_map date_from date_to cats worksheet_name w) = Raise e
          /\ maps (snd (generate_map date_from date_to cats worksheet_name w)) = maps w).
Proof.
  intros Hread Hall Hfile. destruct (prepare_frame_converts f Hall) as [g Hframe].
  destruct (geocode_batch geocode g d0 n1) as [[[cs d'] n'] log] eqn:E.
  destruct (generate_map_run date_from date_to cats worksheet_name w f n1 g d0 cs d' n' log)
    as [o' Hrun]; try done.
  rewrite Hrun. cbn [fst snd]. exists d'. split.
  { unfold cache_of_file. cbn [files]. by rewrite lookup_insert_eq, pickle_loads_dumps. }
  split; [by eapply geocode_batch_keeps|]. split.
  - intros r Hr Hkept. apply prepare_frame_ok in Hframe.
    assert (Hin : r ∈ List.filter kept f).
    { apply list_elem_of_In, filter_In. by rewrite <- list_elem_of_In. }
    apply list_elem_of_lookup in Hin as [i Hi].
    destruct (Forall2_lookup_l _ _ _ _ _ Hframe Hi) as (r' & Hi' & Hprep).
    destruct (geocode_batch_lookup _ _ _ _ _ _ _ _ E i r' Hi') as (v & _ & Hv).
    rewrite (prepared_row_key _ _ Hprep) in Hv. by exists v.
  - intros e He. rewrite He. done.
Qed.

(** A second run on the same sheet does not call the geocoder.  After a run
    that reached the geocoding, a new process that reads a sheet with the
    same rows gets every coordinate from the cache file: the log of calls
    is the one the first run left, whatever the dates and the categories
    of the second run are and whatever has changed outside. *)
Theorem generate_map_second_run date_from date_to cats worksheet_name w f n1 d0
    change date_from2 date_to2 cats2 worksheet_name2 n2 :
  read_sheet GOOGLE_SHEET_ID SERVICE_ACCOUNT_JSON worksheet_name (net_state w) = (Ok f, n1) ->
  Forall (fun r => notna (street r) && notna (house r) = true -> converts r) f ->
  cache_of_file w = Ok d0 ->
  read_sheet GOOGLE_SHEET_ID SERVICE_ACCOUNT_JSON worksheet_name2
    (change (net_state (snd (generate_map date_from date_to cats worksheet_name w))))
  = (Ok f, n2) ->
  lookups (snd (generate_map date_from2 date_to2 cats2 worksheet_name2
                  (new_process change
                     (snd (generate_map date_from date_to cats worksheet_name w)))))
  = lookups (snd (generate_map date_from date_to cats worksheet_name w))
  /\ files (snd (generate_map date_from2 date_to2 cats2 worksheet_name2
                   (new_process change
                      (snd (generate_map date_from date_to cats worksheet_name w)))))
     = files (snd (generate_map date_from date_to cats worksheet_name w)).
Proof.
  intros Hread Hall Hfile. destruct (prepare_frame_converts f Hall) as [g Hframe].
  destruct (geocode_batch geocode g d0 n1) as [[[cs d'] n'] log] eqn:E.
  destruct (generate_map_run date_from date_to cats worksheet_name w f n1 g d0 cs d' n' log)
    as [o' Hrun]; try done.
  rewrite Hrun. cbn [fst snd net_state]. intros Hread2.
  match goal with |- context [new_process change ?w1] => set (w2 := new_process change w1) end.
  destruct (generate_map_run date_from2 date_to2 cats2 worksheet_name2 w2 f n2 g d' cs d' n2 [])
    as [o2 Hrun2]; try done.
  { unfold cache_of_file, w2. cbn [files new_process].
    by rewrite lookup_insert_eq, pickle_loads_dumps. }
  { by apply (geocode_batch_again _ _ _ _ _ _ _ _ E). }
  rewrite Hrun2. cbn [snd lookups files]. unfold w2. cbn [lookups files new_process].
  split; [by rewrite app_nil_r|]. by rewrite insert_insert_eq.
Qed.

(** ** The rows that are rendered *)

Lemma with_coords_elem cs (g : frame) r' :
  length cs = length g ->
  r' ∈ with_coords cs g ->
  exists i c p,
    cs !! i = Some c /\ g !! i = Some p
    /\ r' = setitem COL_LON (coord_lon c) (setitem COL_LAT (coord_lat c) p).
Proof.
  unfold with_coords. revert g. induction cs as [|c cs IH]; intros [|p g] Hlen Hin;
    simpl in *; try by apply elem_of_nil in Hin.
  apply elem_of_cons in Hin as [->|Hin].
  - by exists 0, c, p.
  - destruct (IH g) as (i & c' & p' & Hc & Hp & Hr); [lia|done|].
    by exists (S i), c', p'.
Qed.

Lemma filter_mask_range date_from date_to cats r :
  filter_mask date_from date_to cats r = true ->
  exists ns,
    created_at r = Timestamp ns
    /\ (Timestamp_of_date date_from <= ns)%Z
    /\ (ns <= Timestamp_of_date date_to + Timedelta_seconds 86399)%Z.
Proof.
  unfold filter_mask, ge_timestamp, le_timestamp. intros Hmask.
  destruct (created_at r) as [| |s|z|q|ns]; simpl in Hmask;
    try (by destruct cats as [[|c cs]|]).
  assert (Hd : (Timestamp_of_date date_from <=? ns)%Z
               && (ns <=? Timestamp_of_date date_to + Timedelta_days 1
                          - Timedelta_seconds 1)%Z = true).
  { destruct cats as [[|c cs]|]; [done| |done]. by apply andb_true_iff in Hmask as [? _]. }
  apply andb_true_iff in Hd as [Hlo Hhi]. apply Z.leb_le in Hlo, Hhi.
  exists ns. split; [done|]. split; [done|].
  unfold Timestamp_of_date, Timedelta_days, Timedelta_seconds, NS_PER_DAY, NS_PER_SECOND in *.
  lia.
Qed.

(** What reaches the map.  In a run that goes through, [build_map] gets one
    frame.  Each of its rows comes from a row of the sheet with a street
    and a house, has them as strings, carries as [lat] and [lon] the
    coordinate that the saved cache holds for its key, has a timestamp in
    the range of dates and a category that is not missing; the frame has
    no more rows than the sheet. *)
Theorem generate_map_renders date_from date_to cats worksheet_name w f n1 d0 a b :
  read_sheet GOOGLE_SHEET_ID SERVICE_ACCOUNT_JSON worksheet_name (net_state w) = (Ok f, n1) ->
  Forall (fun r => notna (street r) && notna (house r) = true -> converts r) f ->
  cache_of_file w = Ok d0 ->
  parsed_dates date_from date_to = Ok (a, b) ->
  exists w' k d',
    generate_map date_from date_to cats worksheet_name w = (Ok tt, w')
    /\ maps w' = maps w ++ [k]
    /\ cache_of_file w' = Ok d'
    /\ length k <= length f
    /\ (forall r', r' ∈ k ->
          exists r la lo ns,
            r ∈ f
            /\ notna (street r) && notna (house r) = true
            /\ street r' = Text (cell_str (street r))
            /\ house r' = Text (cell_str (house r))
            /\ lat r' = Float la /\ lon r' = Float lo
            /\ d' !! key (cell_str (street r)) (cell_str (house r)) = Some (Some (la, lo))
            /\ created_at r' = Timestamp ns
            /\ (Timestamp_of_date a <= ns <= Timestamp_of_date b + Timedelta_seconds 86399)%Z
            /\ notna (category r') = true).
Proof.
  intros Hread Hall Hfile Hdates. destruct (prepare_frame_converts f Hall) as [g Hframe].
  destruct (geocode_batch geocode g d0 n1) as [[[cs d'] n'] log] eqn:E.
  destruct (generate_map_run date_from date_to cats worksheet_name w f n1 g d0 cs d' n' log)
    as [o' Hrun]; try done.
  rewrite Hrun, Hdates. cbn [result_map].
  eexists. exists (rendered_rows cs g a b cats), d'. split; [reflexivity|]. cbn [maps].
  split; [done|]. split.
  { unfold cache_of_file. cbn [files]. by rewrite lookup_insert_eq, pickle_loads_dumps. }
  pose proof (geocode_batch_length _ _ _ _ _ _ _ _ E) as Hlen.
  apply prepare_frame_ok in Hframe. split.
  { unfold rendered_rows. etrans; [apply List.filter_length_le|].
    etrans; [apply List.filter_length_le|].
    unfold with_coords. rewrite !length_zip_with, !length_map.
    rewrite <- (Forall2_length _ _ _ Hframe).
    pose proof (List.filter_length_le kept f). lia. }
  intros r' Hr'. unfold rendered_rows in Hr'.
  apply list_elem_of_In, filter_In in Hr' as [Hr' Hmask].
  apply filter_In in Hr' as [Hr' Hcoords]. apply list_elem_of_In in Hr'.
  destruct (with_coords_elem cs g r' Hlen Hr') as (i & c & p & Hc & Hp & ->).
  destruct (Forall2_lookup_r _ _ _ _ _ Hframe Hp) as (r & Hr & Hprep).
  destruct (geocode_batch_lookup _ _ _ _ _ _ _ _ E i p Hp) as (v & Hv & Hkey).
  rewrite Hc in Hv. injection Hv as <-.
  rewrite (prepared_row_key _ _ Hprep) in Hkey.
  destruct (filter_mask_range _ _ _ _ Hmask) as (ns & Hns & Hlo & Hhi).
  destruct Hprep as (z & t & _ & _ & ->).
  destruct c as [[la lo]|]; [|done].
  apply list_elem_of_lookup_2, list_elem_of_In, filter_In in Hr as [Hr Hkept].
  exists r, la, lo, ns. split; [by apply list_elem_of_In|]. split; [exact Hkept|].
  repeat split; try done.
  simpl. unfold fill_category, notna. by destruct (isna (category r)) eqn:Ec; [|rewrite Ec].
Qed.

End Process.

(** * 6) The map

    What [build_map] puts on the map, as a value: the layers in the order
    in which they are added, and the bounds the view is fitted to.  The
    styling (tiles, radius, icon, padding) is constant and left out. *)

Section Map.

(** The text of a marker's popup, an f-string over the street, the house,
    the category, the count and the date of the row. *)
Variable popup_text : row -> string.

Record marker := Marker {
  location : cell * cell;
  popup : string
}.

Inductive layer :=
  | MiniMap
  | Fullscreen
  | HeatMapGroup (heat_data : list (cell * cell * cell))
  | CategoryGroup (name : cell) (cluster : list marker)
  | LayerControl.

Record folium_map := FoliumMap {
  children : list layer;
  fit_bounds : option ((cell * cell) * (cell * cell))
}.

(** [==] on the values of a column, which is also how a dict and [unique]
    tell keys apart: an integer equals the float of the same value. *)
Definition cell_eqb (a b : cell) : bool :=
  match a, b with
  | NA, NA => true
  | NaT, NaT => true
  | Text s, Text t => bool_decide (s = t)
  | Int x, Int y => (x =? y)%Z
  | Float p, Float q => Qeq_bool p q
  | Int x, Float q => Qeq_bool (inject_Z x) q
  | Float p, Int y => Qeq_bool p (inject_Z y)
  | Timestamp x, Timestamp y => (x =? y)%Z
  | _, _ => false
  end.

(** [Series.unique()]: the distinct values, in the order of their first
    appearance. *)
Fixpoint unique (values : list cell) : list cell :=
  match values with
  | [] => []
  | v :: vs => v :: List.filter (fun x => negb (cell_eqb v x)) (unique vs)
  end.

(** [.values] on the columns [lat], [lon] and the count makes one array of
    floats. *)
Definition as_float (c : cell) : cell :=
  match c with
  | Int z => Float (inject_Z z)
  | _ => c
  end.

Definition heat_row (r : row) : cell * cell * cell :=
  (as_float (lat r), as_float (lon r), as_float (count r)).

Definition marker_of (r : row) : marker :=
  Marker (lat r, lon r) (popup_text r).

(** The dict [clusters], in the order of insertion.  A cluster is shared by
    the dict and the map: what is added to it through the dict is on the
    map. *)
Definition clusters := list (cell * list marker).

(** [clusters[cat] = MarkerCluster()] *)
Fixpoint clusters_setitem (k : cell) (ms : list marker) (cl : clusters) : clusters :=
  match cl with
  | [] => [(k, ms)]
  | (k', ms') :: cl' =>
      if cell_eqb k k' then (k', ms) :: cl' else (k', ms') :: clusters_setitem k ms cl'
  end.

(** [Marker(...).add_to(clusters[cat])] *)
Fixpoint add_to_cluster (k : cell) (m : marker) (cl : clusters) : result clusters :=
  match cl with
  | [] => Raise KeyError
  | (k', ms) :: cl' =>
      if cell_eqb k k' then Ok ((k', ms ++ [m]) :: cl')
      else result_map (cons (k', ms)) (add_to_cluster k m cl')
  end.

(** [for cat in df[COL_CAT].unique(): ...] *)
Definition new_clusters (f : frame) : clusters :=
  fold_left (fun cl cat => clusters_setitem cat [] cl) (unique (map category f)) [].

(** [for _, r in df.iterrows(): ...] *)
Fixpoint add_markers (rows : list row) (cl : clusters) : result clusters :=
  match rows with
  | [] => Ok cl
  | r :: rows' =>
      match add_to_cluster (category r) (marker_of r) cl with
      | Ok cl' => add_markers rows' cl'
      | Raise e => Raise e
      end
  end.

(** The numbers of a column; [min] and [max] skip what is missing. *)
Definition numbers (values : list cell) : list Q :=
  omap (fun c => match c with
                 | Float q => Some q
                 | Int z => Some (inject_Z z)
                 | _ => None
                 end) values.

Definition Q_min (a b : Q) : Q := if Qle_bool a b then a else b.
Definition Q_max (a b : Q) : Q := if Qle_bool a b then b else a.

Definition series_min (values : list cell) : cell :=
  match numbers values with
  | [] => NA
  | q :: qs => Float (fold_left Q_min qs q)
  end.

Definition series_max (values : list cell) : cell :=
  match numbers values with
  | [] => NA
  | q :: qs => Float (fold_left Q_max qs q)
  end.

Definition build_map_content (f : frame) : result folium_map :=
  let heat :=
    match f with
    | [] => []
    | _ => [HeatMapGroup (map heat_row f)]
    end in
  match add_markers f (new_clusters f) with
  | Raise e => Raise e
  | Ok cl =>
      let bounds :=
        match f with
        | [] => None
        | _ => Some ((series_min (map lat f), series_min (map lon f)),
                     (series_max (map lat f), series_max (map lon f)))
        end in
      Ok (FoliumMap
            ([MiniMap; Fullscreen] ++ heat
               ++ map (fun c => CategoryGroup (fst c) (snd c)) cl ++ [LayerControl])
            bounds)
  end.

(** ** Equality of values *)

Lemma cell_eqb_refl a : cell_eqb a a = true.
Proof.
  destruct a; simpl; try done.
  - by apply bool_decide_eq_true.
  - apply Z.eqb_refl.
  - by apply Qeq_bool_iff.
  - apply Z.eqb_refl.
Qed.

Lemma cell_eqb_sym a b : cell_eqb a b = cell_eqb b a.
Proof.
  destruct a, b; simpl; try done.
  - apply bool_decide_ext. split; congruence.
  - apply Z.eqb_sym.
  - apply eq_true_iff_eq. rewrite !Qeq_bool_iff. split; intros E; by symmetry.
  - apply eq_true_iff_eq. rewrite !Qeq_bool_iff. split; intros E; by symmetry.
  - apply eq_true_iff_eq. rewrite !Qeq_bool_iff. split; intros E; by symmetry.
  - apply Z.eqb_sym.
Qed.

Lemma inject_Z_Qeq x y : (inject_Z x == inject_Z y)%Q -> x = y.
Proof. unfold Qeq. simpl. lia. Qed.

Lemma cell_eqb_trans a b c :
  cell_eqb a b = true -> cell_eqb b c = true -> cell_eqb a c = true.
Proof.
  destruct a, b, c; simpl; try done;
    rewrite ?bool_decide_eq_true, ?Z.eqb_eq, ?Qeq_bool_iff;
    try congruence; intros E1 E2;
    lazymatch goal with
    | |- (_ == _)%Q => idtac
    | |- _ => apply inject_Z_Qeq
    end; etransitivity; eassumption.
Qed.

(** ** The clusters *)

Definition has_key (k : cell) (cl : clusters) : bool :=
  existsb (fun c => cell_eqb k (fst c)) cl.

(** No two keys are equal. *)
Fixpoint distinct (ks : list cell) : Prop :=
  match ks with
  | [] => True
  | k :: ks' => Forall (fun k' => cell_eqb k k' = false) ks' /\ distinct ks'
  end.

Lemma unique_has values x :
  In x values -> existsb (cell_eqb x) (unique values) = true.
Proof.
  induction values as [|v vs IH]; [done|]. intros [->|Hin]; simpl.
  - by rewrite cell_eqb_refl.
  - destruct (cell_eqb x v) eqn:Exv; [done|]. simpl.
    apply existsb_exists. apply IH, existsb_exists in Hin as (u & Hu & Exu).
    exists u. split; [|done]. apply filter_In. split; [done|].
    destruct (cell_eqb v u) eqn:Evu; [|done].
    rewrite cell_eqb_sym in Evu. by rewrite (cell_eqb_trans _ _ _ Exu Evu) in Exv.
Qed.

Lemma distinct_filter (p : cell -> bool) ks : distinct ks -> distinct (List.filter p ks).
Proof.
  induction ks as [|k ks IH]; [done|]. intros [Hk Hks]. simpl.
  destruct (p k); simpl; [|by apply IH]. split; [|by apply IH].
  apply Forall_forall. intros k' Hin. apply list_elem_of_In, filter_In in Hin as [Hin _].
  rewrite Forall_forall in Hk. by apply Hk, list_elem_of_In.
Qed.

Lemma unique_distinct values : distinct (unique values).
Proof.
  induction values as [|v vs IH]; [done|]. simpl. split; [|by apply distinct_filter].
  apply Forall_forall. intros k Hin. apply list_elem_of_In, filter_In in Hin as [_ Hk].
  by apply negb_true_iff.
Qed.

Lemma clusters_setitem_new k ms cl :
  has_key k cl = false -> clusters_setitem k ms cl = cl ++ [(k, ms)].
Proof.
  induction cl as [|[k' ms'] cl IH]; [done|]. simpl.
  destruct (cell_eqb k k'); [done|]. simpl. intros Hk. by rewrite IH.
Qed.

Lemma new_clusters_from ks cl :
  distinct (map fst cl ++ ks) ->
  fold_left (fun cl cat => clusters_setitem cat [] cl) ks cl
  = cl ++ map (fun k => (k, [])) ks.
Proof.
  revert cl. induction ks as [|k ks IH]; intros cl Hd; simpl.
  - by rewrite app_nil_r.
  - rewrite clusters_setitem_new.
    + rewrite IH; [by rewrite <- app_assoc|].
      by rewrite map_app, <- app_assoc.
    + clear IH. induction cl as [|[k' ms'] cl IHcl]; [done|].
      simpl in *. destruct Hd as [Hk' Hd]. rewrite (IHcl Hd), orb_false_r.
      rewrite Forall_app, Forall_cons in Hk'. destruct Hk' as (_ & Hk' & _).
      by rewrite cell_eqb_sym.
Qed.

Lemma new_clusters_unique f :
  new_clusters f = map (fun k => (k, [])) (unique (map category f)).
Proof. unfold new_clusters. rewrite new_clusters_from; [done|]. apply unique_distinct. Qed.

(** A marker goes to the cluster of its key, and to no other. *)
Lemma add_to_cluster_run k m cl :
  distinct (map fst cl) ->
  has_key k cl = true ->
  add_to_cluster k m cl
  = Ok (map (fun c => (fst c, snd c ++ (if cell_eqb k (fst c) then [m] else []))) cl).
Proof.
  induction cl as [|[k' ms] cl IH]; [done|]. simpl. intros [Hk' Hd] Hk.
  destruct (cell_eqb k k') eqn:E.
  - f_equal. f_equal. clear IH Hk. induction cl as [|[k2 ms2] cl IHcl]; [done|].
    simpl in *. destruct Hd as [_ Hd]. apply Forall_cons in Hk' as [Hk2 Hk'].
    rewrite <- (IHcl Hk' Hd). destruct (cell_eqb k k2) eqn:E2.
    + rewrite cell_eqb_sym in E. by rewrite (cell_eqb_trans _ _ _ E E2) in Hk2.
    + by rewrite app_nil_r.
  - simpl in Hk. rewrite (IH Hd Hk). simpl. by rewrite app_nil_r.
Qed.

Lemma add_markers_run rows cl :
  distinct (map fst cl) ->
  Forall (fun r => has_key (category r) cl = true) rows ->
  add_markers rows cl
  = Ok (map (fun c =>
          (fst c, snd c ++ map marker_of
                     (List.filter (fun r => cell_eqb (category r) (fst c)) rows))) cl).
Proof.
  revert cl. induction rows as [|r rows IH]; intros cl Hd Hall; simpl.
  - f_equal. clear Hd Hall. induction cl as [|[k ms] cl IHcl]; [done|]. simpl.
    by rewrite app_nil_r, <- IHcl.
  - apply Forall_cons in Hall as [Hr Hall].
    rewrite (add_to_cluster_run _ _ _ Hd Hr). rewrite IH.
    + f_equal. rewrite map_map. apply map_ext. intros [k ms]. simpl.
      destruct (cell_eqb (category r) k); simpl; by rewrite <- app_assoc.
    + by rewrite map_map, map_ext with (g := fst).
    + eapply Forall_impl; [exact Hall|]. intros r' Hr'. unfold has_key in *.
      apply existsb_exists in Hr' as (c & Hc & E). apply existsb_exists.
      exists (fst c, snd c ++ (if cell_eqb (category r) (fst c) then [marker_of r] else [])).
      split; [|done]. apply in_map_iff. by exists c.
Qed.

Lemma build_map_clusters f :
  add_markers f (new_clusters f)
  = Ok (map (fun k => (k, map marker_of (List.filter (fun r => cell_eqb (category r) k) f)))
          (unique (map category f))).
Proof.
  rewrite new_clusters_unique, add_markers_run.
  - by rewrite map_map.
  - rewrite map_map. simpl. rewrite map_id. apply unique_distinct.
  - apply Forall_forall. intros r Hr. unfold has_key.
    rewrite existsb_exists.
    assert (Hin : In (category r) (map category f)).
    { apply in_map, list_elem_of_In, Hr. }
    apply unique_has, existsb_exists in Hin as (u & Hu & E).
    exists (u, []). split; [|done]. apply in_map_iff. by exists u.
Qed.

(** The groups of markers on a map, in the order of the layers. *)
Definition category_groups (m : folium_map) : clusters :=
  omap (fun l => match l with
                 | CategoryGroup name cluster => Some (name, cluster)
                 | _ => None
                 end) (children m).

Lemma category_groups_content f :
  exists m,
    build_map_content f = Ok m
    /\ category_groups m
       = map (fun k => (k, map marker_of (List.filter (fun r => cell_eqb (category r) k) f)))
           (unique (map category f)).
Proof.
  unfold build_map_content. rewrite build_map_clusters. eexists. split; [reflexivity|].
  unfold category_groups. cbn [children]. generalize (unique (map category f)). intros ks.
  assert (Hheat : forall h : list (list (cell * cell * cell)),
            omap (fun l => match l with
                           | CategoryGroup name cluster => Some (name, cluster)
                           | _ => None
                           end) (map HeatMapGroup h) = []).
  { induction h; [done|]. by simpl. }
  destruct f as [|r f]; simpl.
  - induction ks as [|k ks IH]; [done|]. simpl. by rewrite IH.
  - induction ks as [|k ks IH]; [done|]. simpl in *. by rewrite IH.
Qed.

Lemma count_one_key (x : cell) ks :
  distinct ks ->
  existsb (cell_eqb x) ks = true ->
  length (List.filter (cell_eqb x) ks) = 1.
Proof.
  induction ks as [|k ks IH]; [done|]. simpl. intros [Hk Hd] Hx.
  destruct (cell_eqb x k) eqn:E; simpl.
  - f_equal. clear IH Hx Hd. induction ks as [|k2 ks IH]; [done|].
    apply Forall_cons in Hk as [Hk2 Hk]. simpl. destruct (cell_eqb x k2) eqn:E2.
    + rewrite cell_eqb_sym in E. by rewrite (cell_eqb_trans _ _ _ E E2) in Hk2.
    + by apply IH.
  - by apply IH.
Qed.

Lemma markers_total ks (f : frame) :
  distinct ks ->
  Forall (fun r => existsb (cell_eqb (category r)) ks = true) f ->
  length (concat (map (fun k =>
            map marker_of (List.filter (fun r => cell_eqb (category r) k) f)) ks))
  = length f.
Proof.
  intros Hd. induction f as [|r f IH]; intros Hall.
  - simpl. clear. by induction ks.
  - apply Forall_cons in Hall as [Hr Hall]. specialize (IH Hall).
    pose proof (count_one_key _ _ Hd Hr) as Hone. simpl. rewrite <- IH.
    match goal with |- _ = S ?n =>
      transitivity (length (List.filter (cell_eqb (category r)) ks) + n);
        [|by rewrite Hone]
    end.
    clear. induction ks as [|k ks IHks]; [done|]. simpl.
    rewrite !length_app, !length_map, IHks.
    destruct (cell_eqb (category r) k); simpl; lia.
Qed.

(** Every row gets its marker.  For a frame in which no category is missing
    (what [prepare_dataframe] leaves), [build_map] does not raise: the
    lookup [clusters[r[COL_CAT]]] always finds a cluster.  The map has one
    group of markers for each distinct category, none of them empty and no
    two under equal names; a group holds the markers of the rows of its
    category, in the order of the rows; and the markers of all groups are
    as many as the rows. *)
Theorem build_map_groups (f : frame) :
  Forall (fun r => notna (category r) = true) f ->
  exists m,
    build_map_content f = Ok m
    /\ distinct (map fst (category_groups m))
    /\ (forall r, r ∈ f -> has_key (category r) (category_groups m) = true)
    /\ (forall k ms, (k, ms) ∈ category_groups m ->
          ms <> []
          /\ ms = map marker_of (List.filter (fun r => cell_eqb (category r) k) f))
    /\ length (concat (map snd (category_groups m))) = length f.
Proof.
  intros _. destruct (category_groups_content f) as (m & Hm & Hgroups).
  exists m. split; [done|]. rewrite Hgroups.
  assert (Hhas : forall r, r ∈ f -> existsb (cell_eqb (category r)) (unique (map category f)) = true).
  { intros r Hr. apply unique_has, in_map, list_elem_of_In, Hr. }
  split; [|split; [|split]].
  - rewrite map_map. simpl. rewrite map_id. apply unique_distinct.
  - intros r Hr. unfold has_key. rewrite existsb_exists.
    specialize (Hhas r Hr). apply existsb_exists in Hhas as (u & Hu & E).
    eexists (u, _). split; [|exact E]. apply in_map_iff. by exists u.
  - intros k ms Hin. apply list_elem_of_In, in_map_iff in Hin as (u & [= <- <-] & Hu).
    split; [|done].
    assert (Hk : exists r, In r f /\ cell_eqb (category r) u = true).
    { clear Hhas Hm Hgroups. induction f as [|r f IH]; [done|]. simpl in Hu.
      destruct Hu as [<-|Hu].
      - exists r. split; [by left|apply cell_eqb_refl].
      - apply filter_In in Hu as [Hu _]. destruct (IH Hu) as (r' & Hr' & E).
        exists r'. split; [by right|done]. }
    destruct Hk as (r & Hr & E). intros Hnil.
    assert (Hin : In r (List.filter (fun r => cell_eqb (category r) u) f)) by by apply filter_In.
    destruct (List.filter _ f); [done|discriminate].
  - rewrite map_map. simpl. apply markers_total; [apply unique_distinct|].
    by apply Forall_forall.
Qed.

(** ** The bounds *)

Lemma Q_min_l a b : (Q_min a b <= a)%Q.
Proof.
  unfold Q_min. destruct (Qle_bool a b) eqn:E; [apply Qle_refl|].
  apply Qlt_le_weak, Qnot_le_lt. intros Hle. apply Qle_bool_iff in Hle. congruence.
Qed.

Lemma Q_min_r a b : (Q_min a b <= b)%Q.
Proof.
  unfold Q_min. destruct (Qle_bool a b) eqn:E; [by apply Qle_bool_iff|apply Qle_refl].
Qed.

Lemma Q_max_l a b : (a <= Q_max a b)%Q.
Proof.
  unfold Q_max. destruct (Qle_bool a b) eqn:E; [by apply Qle_bool_iff|apply Qle_refl].
Qed.

Lemma Q_max_r a b : (b <= Q_max a b)%Q.
Proof.
  unfold Q_max. destruct (Qle_bool a b) eqn:E; [apply Qle_refl|].
  apply Qlt_le_weak, Qnot_le_lt. intros Hle. apply Qle_bool_iff in Hle. congruence.
Qed.

Lemma fold_Q_min qs q :
  Forall (fun x => (fold_left Q_min qs q <= x)%Q) (q :: qs) /\ In (fold_left Q_min qs q) (q :: qs).
Proof.
  revert q. induction qs as [|a qs IH]; intros q; simpl.
  - split; [|by left]. apply Forall_cons. split; [apply Qle_refl|done].
  - destruct (IH (Q_min q a)) as [Hle Hin]. apply Forall_cons in Hle as [Hm Hle]. split.
    + repeat apply Forall_cons_2; [| |done].
      * eapply Qle_trans; [exact Hm|apply Q_min_l].
      * eapply Qle_trans; [exact Hm|apply Q_min_r].
    + destruct Hin as [Hin|Hin]; [|by right; right].
      rewrite <- Hin. unfold Q_min. destruct (Qle_bool q a); [by left|by right; left].
Qed.

Lemma fold_Q_max qs q :
  Forall (fun x => (x <= fold_left Q_max qs q)%Q) (q :: qs) /\ In (fold_left Q_max qs q) (q :: qs).
Proof.
  revert q. induction qs as [|a qs IH]; intros q; simpl.
  - split; [|by left]. apply Forall_cons. split; [apply Qle_refl|done].
  - destruct (IH (Q_max q a)) as [Hle Hin]. apply Forall_cons in Hle as [Hm Hle]. split.
    + repeat apply Forall_cons_2; [| |done].
      * eapply Qle_trans; [apply Q_max_l|exact Hm].
      * eapply Qle_trans; [apply Q_max_r|exact Hm].
    + destruct Hin as [Hin|Hin]; [|by right; right].
      rewrite <- Hin. unfold Q_max. destruct (Qle_bool q a); [by right; left|by left].
Qed.

Lemma numbers_floats (col : row -> cell) (f : frame) :
  Forall (fun r => exists q, col r = Float q) f ->
  forall q, In q (numbers (map col f)) <-> exists r, r ∈ f /\ col r = Float q.
Proof.
  induction f as [|r f IH]; intros Hall q.
  - simpl. split; [done|]. intros (r & Hr & _). by apply elem_of_nil in Hr.
  - apply Forall_cons in Hall as [[q0 Hq0] Hall]. unfold numbers in *. simpl.
    rewrite Hq0. simpl. rewrite (IH Hall). split.
    + intros [<-|(r' & Hr' & E)]; [exists r|exists r']; split; try done.
      * by left.
      * by right.
    + intros (r' & Hr' & E). apply elem_of_cons in Hr' as [->|Hr'].
      * left. congruence.
      * right. by exists r'.
Qed.

Lemma series_min_floats (col : row -> cell) (r0 : row) (f : frame) :
  Forall (fun r => exists q, col r = Float q) (r0 :: f) ->
  exists lo,
    series_min (map col (r0 :: f)) = Float lo
    /\ (exists r, r ∈ r0 :: f /\ col r = Float lo)
    /\ (forall r q, r ∈ r0 :: f -> col r = Float q -> (lo <= q)%Q).
Proof.
  intros Hall. pose proof (numbers_floats col _ Hall) as Hnum.
  unfold series_min. destruct (numbers (map col (r0 :: f))) as [|q qs] eqn:E.
  - apply Forall_cons in Hall as [[q0 Hq0] _].
    destruct (proj2 (Hnum q0)). exists r0. split; [by left|done].
  - destruct (fold_Q_min qs q) as [Hle Hin]. eexists. split; [reflexivity|]. split.
    + by apply Hnum.
    + intros r x Hr Hx. rewrite Forall_forall in Hle. apply Hle, list_elem_of_In, Hnum.
      by exists r.
Qed.

Lemma series_max_floats (col : row -> cell) (r0 : row) (f : frame) :
  Forall (fun r => exists q, col r = Float q) (r0 :: f) ->
  exists hi,
    series_max (map col (r0 :: f)) = Float hi
    /\ (exists r, r ∈ r0 :: f /\ col r = Float hi)
    /\ (forall r q, r ∈ r0 :: f -> col r = Float q -> (q <= hi)%Q).
Proof.
  intros Hall. pose proof (numbers_floats col _ Hall) as Hnum.
  unfold series_max. destruct (numbers (map col (r0 :: f))) as [|q qs] eqn:E.
  - apply Forall_cons in Hall as [[q0 Hq0] _].
    destruct (proj2 (Hnum q0)). exists r0. split; [by left|done].
  - destruct (fold_Q_max qs q) as [Hle Hin]. eexists. split; [reflexivity|]. split.
    + by apply Hnum.
    + intros r x Hr Hx. rewrite Forall_forall in Hle. apply Hle, list_elem_of_In, Hnum.
      by exists r.
Qed.

(** The view encloses every point.  For a frame with at least one row, all
    with a float [lat] and [lon] (what [dropna] leaves), the map is fitted to
    a box of which each side is the coordinate of a row and which has every
    row inside. *)
Theorem build_map_bounds (f : frame) :
  f <> [] ->
  Forall (fun r => exists q, lat r = Float q) f ->
  Forall (fun r => exists q, lon r = Float q) f ->
  exists m south west north east,
    build_map_content f = Ok m
    /\ fit_bounds m = Some ((Float south, Float west), (Float north, Float east))
    /\ (forall r la lo, r ∈ f -> lat r = Float la -> lon r = Float lo ->
          (south <= la /\ la <= north /\ west <= lo /\ lo <= east)%Q)
    /\ (exists r, r ∈ f /\ lat r = Float south)
    /\ (exists r, r ∈ f /\ lat r = Float north)
    /\ (exists r, r ∈ f /\ lon r = Float west)
    /\ (exists r, r ∈ f /\ lon r = Float east).
Proof.
  intros Hne Hlat Hlon. destruct f as [|r0 f]; [done|].
  destruct (series_min_floats lat r0 f Hlat) as (south & Es & Hs & Hsle).
  destruct (series_max_floats lat r0 f Hlat) as (north & En & Hn & Hnle).
  destruct (series_min_floats lon r0 f Hlon) as (west & Ew & Hw & Hwle).
  destruct (series_max_floats lon r0 f Hlon) as (east & Ee & He & Hele).
  unfold build_map_content. rewrite build_map_clusters.
  eexists. exists south, west, north, east. split; [reflexivity|]. cbn [fit_bounds].
  rewrite Es, En, Ew, Ee. split; [done|]. split; [|done].
  intros r la lo Hr Hla Hlo. repeat split.
  - by apply (Hsle r).
  - by apply (Hnle r).
  - by apply (Hwle r).
  - by apply (Hele r).
Qed.

End Map.

(** * More runs in the reference world *)

Section Samples.
#[local] Existing Instance reference.

(** ** One call of [smart_geocode] *)

Lemma smart_geocode_hit_witness :
  smart_geocode "Ленина" "5" geocode 0 cached_none_world = (Ok None, cached_none_world).
Proof.
  apply (smart_geocode_hit "Ленина" "5" geocode 0 cached_none_world
           {[ "Ленина_5" := None ]} None); reflexivity.
Defined.

Lemma smart_geocode_miss_resolved_witness :
  exists w',
    smart_geocode "Ленина" "5" geocode 0 empty_cache_world
    = (Ok (Some (latitude lenina_5, longitude lenina_5)), w')
    /\ objs w' !! 0
       = Some (Dict (<[key "Ленина" "5" := Some (latitude lenina_5, longitude lenina_5)]> ∅))
    /\ lookups w' = lookups empty_cache_world ++ [(key "Ленина" "5", address "Ленина" "5")]
    /\ net_state w' = sample_net.
Proof.
  apply (smart_geocode_miss_resolved "Ленина" "5" geocode 0 empty_cache_world ∅
           lenina_5 sample_net); reflexivity.
Defined.

Lemma smart_geocode_grows_cache_witness :
  exists v w' d',
    smart_geocode "Баумана" "1" geocode 0 cached_none_world = (Ok v, w')
    /\ objs w' !! 0 = Some (Dict d')
    /\ d' !! key "Баумана" "1" = Some v
    /\ (forall k x, ({[ "Ленина_5" := None ]} : gmap string (option (Q * Q))) !! k = Some x ->
          d' !! k = Some x)
    /\ (forall k, k <> key "Баумана" "1" ->
          d' !! k = ({[ "Ленина_5" := None ]} : gmap string (option (Q * Q))) !! k)
    /\ (forall i, i <> 0 -> objs w' !! i = objs cached_none_world !! i)
    /\ files w' = files cached_none_world
    /\ maps w' = maps cached_none_world.
Proof.
  apply (smart_geocode_grows_cache "Баумана" "1" geocode 0 cached_none_world
           {[ "Ленина_5" := None ]}); reflexivity.
Defined.

(** The street "Ленина_5" with house "2" and the street "Ленина" with house
    "5_2". *)
Lemma key_collision_witness :
  key ("Ленина" +:+ "_" +:+ "5") "2" = key "Ленина" ("5" +:+ "_" +:+ "2")
  /\ address ("Ленина" +:+ "_" +:+ "5") "2" <> address "Ленина" ("5" +:+ "_" +:+ "2")
  /\ (exists v w',
       smart_geocode ("Ленина" +:+ "_" +:+ "5") "2" geocode 0 empty_cache_world = (Ok v, w')
       /\ forall g', smart_geocode "Ленина" ("5" +:+ "_" +:+ "2") g' 0 w' = (Ok v, w'))
  /\ (exists v w',
       smart_geocode "Ленина" ("5" +:+ "_" +:+ "2") geocode 0 empty_cache_world = (Ok v, w')
       /\ forall g', smart_geocode ("Ленина" +:+ "_" +:+ "5") "2" g' 0 w' = (Ok v, w')).
Proof.
  apply (key_collision "Ленина" "5" "2" geocode 0 empty_cache_world ∅); reflexivity.
Defined.

Lemma df_apply_geocode_twice_witness :
  exists coords w',
    df_apply 0 (fun r =>
      smart_geocode (cell_str (street r)) (cell_str (house r)) geocode 1) geocoding_world
    = (Ok coords, w')
    /\ df_apply 0 (fun r =>
         smart_geocode (cell_str (street r)) (cell_str (house r)) geocoder_down 1) w'
       = (Ok coords, w').
Proof.
  apply (df_apply_geocode_twice geocode geocoder_down 0 1 prepared_rows geocoding_world ∅);
    reflexivity.
Defined.

(** ** Frames and files *)

Lemma save_cache_replaces_file_witness :
  exists w',
    save_cache 0 GEOCACHE_FILE saving_world = (Ok tt, w')
    /\ files w' !! GEOCACHE_FILE = Some (pickle_dumps new_cache)
    /\ fst (load_cache GEOCACHE_FILE w') = Ok (length (objs saving_world))
    /\ (forall p, p <> GEOCACHE_FILE -> files w' !! p = files saving_world !! p)
    /\ objs w' = objs saving_world /\ lookups w' = lookups saving_world
    /\ maps w' = maps saving_world.
Proof.
  apply (save_cache_replaces_file 0 GEOCACHE_FILE saving_world new_cache). reflexivity.
Defined.

Lemma prepare_dataframe_succeeds_iff_witness :
  (exists df, fst (prepare_dataframe 0 negative_count_world) = Ok df)
  <-> Forall (fun r => notna (street r) && notna (house r) = true -> converts r)
        negative_count_sheet.
Proof.
  apply (prepare_dataframe_succeeds_iff 0 negative_count_world negative_count_sheet).
  reflexivity.
Defined.

Lemma prepare_dataframe_rows_witness :
  exists g,
    objs (snd (prepare_dataframe 0 negative_count_world)) !! 2 = Some (DataFrame g)
    /\ length g
       = length (List.filter (fun r => notna (street r) && notna (house r)) negative_count_sheet)
    /\ Forall2 (fun r r' =>
          street r' = Text (cell_str (street r))
          /\ house r' = Text (cell_str (house r))
          /\ (exists z, count r' = Int z)
          /\ (created_at r' = NaT \/ exists ns, created_at r' = Timestamp ns)
          /\ (isna (created_at r) = true -> created_at r' = NaT)
          /\ category r' = (if isna (category r) then Text "Не указано" else category r)
          /\ isna (category r') = false
          /\ lat r' = lat r /\ lon r' = lon r)
        (List.filter (fun r => notna (street r) && notna (house r)) negative_count_sheet) g.
Proof.
  apply (prepare_dataframe_rows 0 negative_count_world negative_count_sheet 2).
  - reflexivity.
  - vm_compute. reflexivity.
Defined.

Lemma filter_df_rows_witness :
  exists g w',
    filter_df 0 20240 20269 None filter_world = (Ok (length (objs filter_world)), w')
    /\ objs w' !! length (objs filter_world) = Some (DataFrame g)
    /\ (forall i o, objs filter_world !! i = Some o -> objs w' !! i = Some o)
    /\ sublist g june_rows
    /\ (forall r, r ∈ g <->
          r ∈ june_rows
          /\ (exists ns,
                created_at r = Timestamp ns
                /\ (20240 * 86400000000000 <= ns)%Z
                /\ (ns <= (20269 + 1) * 86400000000000 - 1000000000)%Z)
          /\ True).
Proof.
  apply (filter_df_rows 0 filter_world june_rows 20240 20269 None). reflexivity.
Defined.

Lemma filter_df_last_second_witness :
  exists g w',
    filter_df 0 20240 20269 None filter_world = (Ok (length (objs filter_world)), w')
    /\ objs w' !! length (objs filter_world) = Some (DataFrame g)
    /\ Row (Text "Ленина") (Text "5") (Int 1) (Timestamp 1751328000000000000) (Text "вода")
         NA NA ∉ g.
Proof.
  apply (filter_df_last_second 0 filter_world june_rows 20240 20269 None
           (Row (Text "Ленина") (Text "5") (Int 1) (Timestamp 1751328000000000000)
              (Text "вода") NA NA) 1751328000000000000).
  - reflexivity.
  - reflexivity.
  - vm_compute. reflexivity.
Defined.

Lemma filter_df_inverted_range_witness :
  exists w',
    filter_df 0 20269 20240 None filter_world = (Ok (length (objs filter_world)), w')
    /\ objs w' !! length (objs filter_world) = Some (DataFrame []).
Proof.
  apply (filter_df_inverted_range 0 filter_world june_rows 20269 20240 None).
  - reflexivity.
  - lia.
Defined.

(** ** Runs of [generate_map] *)

Lemma sample_sheet_converts :
  Forall (fun r => notna (street r) && notna (house r) = true -> converts r) sample_sheet.
Proof.
  repeat apply Forall_cons_2; try apply Forall_nil_2;
    intros _; split; eexists; vm_compute; reflexivity.
Qed.

(** A cache file that was cut short: it holds nothing. *)
Definition cut_file_world : world :=
  World [] {[ GEOCACHE_FILE := [] ]} sample_net [] [].

Lemma generate_map_corrupt_cache_witness :
  exists e w',
    generate_map "2025-06-01" "2025-06-30" None None cut_file_world = (Raise e, w')
    /\ files w' = files cut_file_world
    /\ lookups w' = lookups cut_file_world
    /\ maps w' = maps cut_file_world.
Proof.
  apply (generate_map_corrupt_cache "2025-06-01" "2025-06-30" None None cut_file_world []);
    reflexivity.
Defined.

(** A second argument that is no date. *)
Lemma generate_map_saves_before_dates_witness :
  exists d',
    cache_of_file (snd (generate_map "2025-06-01" "июнь" None None sample_world)) = Ok d'
    /\ (forall k v, (∅ : gmap string (option (Q * Q))) !! k = Some v -> d' !! k = Some v)
    /\ (forall r, r ∈ sample_sheet -> notna (street r) && notna (house r) = true ->
          is_Some (d' !! key (cell_str (street r)) (cell_str (house r))))
    /\ (forall e, parsed_dates "2025-06-01" "июнь" = Raise e ->
          fst (generate_map "2025-06-01" "июнь" None None sample_world) = Raise e
          /\ maps (snd (generate_map "2025-06-01" "июнь" None None sample_world))
             = maps sample_world).
Proof.
  apply (generate_map_saves_before_dates "2025-06-01" "июнь" None None sample_world
           sample_sheet sample_net ∅).
  - reflexivity.
  - apply sample_sheet_converts.
  - reflexivity.
Defined.

(** The gazetteer is empty when the second run starts. *)
Definition forget (n : reference_net) : reference_net :=
  {| sheet := sheet n; gazetteer := [] |}.

Lemma generate_map_second_run_witness :
  lookups (snd (generate_map "2025-05-01" "2025-05-31" (Some ["вода"]) None
                  (new_process forget
                     (snd (generate_map "2025-06-01" "2025-06-30" None None sample_world)))))
  = lookups (snd (generate_map "2025-06-01" "2025-06-30" None None sample_world))
  /\ files (snd (generate_map "2025-05-01" "2025-05-31" (Some ["вода"]) None
                   (new_process forget
                      (snd (generate_map "2025-06-01" "2025-06-30" None None sample_world)))))
     = files (snd (generate_map "2025-06-01" "2025-06-30" None None sample_world)).
Proof.
  apply (generate_map_second_run "2025-06-01" "2025-06-30" None None sample_world
           sample_sheet sample_net ∅ forget "2025-05-01" "2025-05-31" (Some ["вода"]) None
           (forget sample_net)).
  - reflexivity.
  - apply sample_sheet_converts.
  - reflexivity.
  - vm_compute. reflexivity.
Defined.

Lemma generate_map_renders_witness :
  exists w' k d',
    generate_map "2025-06-01" "2025-06-30" None None sample_world = (Ok tt, w')
    /\ maps w' = maps sample_world ++ [k]
    /\ cache_of_file w' = Ok d'
    /\ length k <= length sample_sheet
    /\ (forall r', r' ∈ k ->
          exists r la lo ns,
            r ∈ sample_sheet
            /\ notna (street r) && notna (house r) = true
            /\ street r' = Text (cell_str (street r))
            /\ house r' = Text (cell_str (house r))
            /\ lat r' = Float la /\ lon r' = Float lo
            /\ d' !! key (cell_str (street r)) (cell_str (house r)) = Some (Some (la, lo))
            /\ created_at r' = Timestamp ns
            /\ (Timestamp_of_date 20240 <= ns
                <= Timestamp_of_date 20269 + Timedelta_seconds 86399)%Z
            /\ notna (category r') = true).
Proof.
  apply (generate_map_renders "2025-06-01" "2025-06-30" None None sample_world
           sample_sheet sample_net ∅ 20240 20269).
  - reflexivity.
  - apply sample_sheet_converts.
  - reflexivity.
  - vm_compute. reflexivity.
Defined.

(** ** The map *)

(** Three rows to render, of two categories. *)
Definition rendered_sample : frame := [
  Row (Text "Ленина") (Text "5") (Int 3) (Timestamp 1751241600000000000)
    (Text "вода") (Float 55.8466) (Float 48.5012);
  Row (Text "Гоголя") (Text "2") (Int 1) (Timestamp 1749945600000000000)
    (Text "свет") (Float 55.8391) (Float 48.5240);
  Row (Text "Ленина") (Text "5") (Int 0) (Timestamp 1748736000000000000)
    (Text "вода") (Float 55.8466) (Float 48.5012)
].

Definition sample_popup (r : row) : string :=
  cell_str (street r) +:+ " " +:+ cell_str (house r).

Lemma build_map_groups_witness :
  exists m,
    build_map_content sample_popup rendered_sample = Ok m
    /\ distinct (map fst (category_groups m))
    /\ (forall r, r ∈ rendered_sample -> has_key (category r) (category_groups m) = true)
    /\ (forall k ms, (k, ms) ∈ category_groups m ->
          ms <> []
          /\ ms = map (marker_of sample_popup)
                    (List.filter (fun r => cell_eqb (category r) k) rendered_sample))
    /\ length (concat (map snd (category_groups m))) = length rendered_sample.
Proof.
  apply (build_map_groups sample_popup rendered_sample).
  repeat apply Forall_cons_2; try apply Forall_nil_2; reflexivity.
Defined.

Lemma build_map_bounds_witness :
  exists m south west north east,
    build_map_content sample_popup rendered_sample = Ok m
    /\ fit_bounds m = Some ((Float south, Float west), (Float north, Float east))
    /\ (forall r la lo, r ∈ rendered_sample -> lat r = Float la -> lon r = Float lo ->
          (south <= la /\ la <= north /\ west <= lo /\ lo <= east)%Q)
    /\ (exists r, r ∈ rendered_sample /\ lat r = Float south)
    /\ (exists r, r ∈ rendered_sample /\ lat r = Float north)
    /\ (exists r, r ∈ rendered_sample /\ lon r = Float west)
    /\ (exists r, r ∈ rendered_sample /\ lon r = Float east).
Proof.
  apply (build_map_bounds sample_popup rendered_sample).
  - discriminate.
  - repeat apply Forall_cons_2; try apply Forall_nil_2; eexists; reflexivity.
  - repeat apply Forall_cons_2; try apply Forall_nil_2; eexists; reflexivity.
Defined.

End Samples.

(** ** A worksheet that is not there *)

(** The reference world, with a spreadsheet of which only the first
    worksheet can be read: asking for a worksheet by name raises (the
    exception stands for the one of [gspread]). *)
Definition first_sheet_only : Externals := {|
  net := reference_net;
  read_sheet := fun _ _ worksheet_name n =>
    match worksheet_name with
    | Some _ => (Raise KeyError, n)
    | None => (Ok (sheet n), n)
    end;
  geocode := fun a n => (gazetteer_find a (gazetteer n), n);
  geodesic_km := grid_distance_km;
  apply_probes_empty := true;
  str_of_value := reference_str;
  int_of_value := fun _ => Raise ValueError;
  datetime_of_value := reference_datetime;
  date_fromisoformat := iso_date;
  pickle_dumps := reference_dumps;
  pickle_loads := reference_loads;
  pickle_loads_dumps := reference_loads_dumps;
  pickle_loads_truncated := reference_loads_truncated
|}.

Section Worksheets.
#[local] Existing Instance first_sheet_only.

Definition first_sheet_world : world := World [] ∅ sample_net [] [].

Lemma generate_map_sheet_error_witness :
  generate_map "2025-06-01" "2025-06-30" None (Some "Лист2") first_sheet_world
  = (Raise KeyError,
     World (objs first_sheet_world) (files first_sheet_world) sample_net
       (lookups first_sheet_world) (maps first_sheet_world)).
Proof.
  apply (generate_map_sheet_error "2025-06-01" "2025-06-30" None (Some "Лист2")
           first_sheet_world KeyError sample_net).
  reflexivity.
Defined.

End Worksheets.
